(** * peervpn, [src/encryption/rsa.c]: the RSA key object

    A shallow embedding of the key object of [rsa.c] and of the functions
    that populate, query and use it.  The object is a C struct that the
    functions update in place; every cryptographic step is a call into
    OpenSSL.  The embedding therefore threads one machine state through
    each function: the struct, the (opaque) state of the library, and the
    list of library entry points called so far. *)

From Stdlib Require Import ZArith List Bool Lia.
From Stdlib.Strings Require Import String Byte.
Import ListNotations.
Open Scope Z_scope.

(** ** Machine integers, pointers, buffers *)

(** Pointers are addresses; only comparison with [NULL] is ever made. *)
Definition ptr := Z.
Definition NULL : ptr := 0.

(** The memory behind an [unsigned char *]. *)
Definition buffer := list byte.

(** [rsaSign] hands [&len], an [int], to the library as [unsigned int *]:
    the 32 bits the library stores are read back as a signed [int]. *)
Definition int_of_uint (u : Z) : Z :=
  let m := u mod 4294967296 in
  if m <? 2147483648 then m else m - 4294967296.

(** OpenSSL's constants used by [rsa.c]. *)
Definition RSA_F4 : Z := 65537.
Definition EVP_PKEY_RSA : Z := 6.

(** ** A state monad for code that updates its state in place *)

Definition M (S A : Type) : Type := S -> A * S.

Definition ret {S A : Type} (a : A) : M S A := fun s => (a, s).

Definition bind {S A B : Type} (c : M S A) (k : A -> M S B) : M S B :=
  fun s => let (a, s') := c s in k a s'.

Declare Scope rsa_scope.
Delimit Scope rsa_scope with rsa.

Notation "x <- c ;; k" := (bind c (fun x => k))
  (at level 61, c at next level, right associativity) : rsa_scope.
Notation "' pat <- c ;; k" := (bind c (fun x => match x with pat => k end))
  (at level 61, pat pattern, c at next level, right associativity) : rsa_scope.
Notation "c ;; k" := (bind c (fun _ => k))
  (at level 61, right associativity) : rsa_scope.

Open Scope rsa_scope.

(** ** The object *)

(** [struct s_rsa]: the key pair handle, the scratch big number of
    [rsaGenerate], the digest context, and the two flags. *)
Record s_rsa : Type := mk_rsa {
  key : ptr;
  bn : ptr;
  md : ptr;
  isvalid : Z;
  isprivate : Z
}.

(** ** What [rsa.c] links against *)

(** The library entry points [rsa.c] calls, by name. *)
Inductive prim : Type :=
| P_i2d_PublicKey
| P_d2i_PublicKey
| P_cryptoCalculateSHA256
| P_OpenSSL_add_all_algorithms
| P_EVP_PKEY_new
| P_EVP_PKEY_free
| P_EVP_PKEY_size
| P_EVP_PKEY_get1_RSA
| P_EVP_PKEY_assign_RSA
| P_BIO_new_file
| P_BIO_new_mem_buf
| P_BIO_free
| P_PEM_read_bio_PrivateKey
| P_PEM_read_bio_RSA_PUBKEY
| P_PEM_read_bio_RSAPrivateKey
| P_RSA_new
| P_RSA_free
| P_RSA_check_key
| P_RSA_generate_key_ex
| P_BN_new
| P_BN_zero
| P_BN_free
| P_BN_set_word
| P_EVP_MD_CTX_create
| P_EVP_MD_CTX_destroy
| P_EVP_sha256
| P_EVP_SignInit_ex
| P_EVP_SignUpdate
| P_EVP_SignFinal
| P_EVP_VerifyInit_ex
| P_EVP_VerifyUpdate
| P_EVP_VerifyFinal.

(** The environment of [rsa.c].  [world] is everything the library owns
    (the objects behind the handles, the file system); an entry point maps
    its arguments and the world to its result and the new world.  Where
    the C function writes through a pointer argument, the value it leaves
    there is part of the result.  Nothing is assumed about what the entry
    points compute.

    [RSA_MINSIZE] and [RSA_MAXSIZE] are the constants of [rsa.h] and
    [cryptoCalculateSHA256] is the function of [crypto.c]; neither file is
    part of the sources at hand, so they are parameters as well. *)
Class Env : Type := {
  world : Type;
  RSA_MINSIZE : Z;
  RSA_MAXSIZE : Z;
  (* i2d_PublicKey(a, pp): length; new contents behind [*pp] if [pp] is given *)
  lib_i2d_PublicKey : ptr -> option buffer -> world -> (Z * buffer) * world;
  (* d2i_PublicKey(type, &a, &pp, length): the decoded key or NULL *)
  lib_d2i_PublicKey : Z -> ptr -> buffer -> Z -> world -> ptr * world;
  (* cryptoCalculateSHA256(hash_buf, hash_len, in_buf, in_len) *)
  lib_cryptoCalculateSHA256 :
    buffer -> Z -> buffer -> Z -> world -> (Z * buffer) * world;
  lib_OpenSSL_add_all_algorithms : world -> unit * world;
  lib_EVP_PKEY_new : world -> ptr * world;
  lib_EVP_PKEY_free : ptr -> world -> unit * world;
  lib_EVP_PKEY_size : ptr -> world -> Z * world;
  lib_EVP_PKEY_get1_RSA : ptr -> world -> ptr * world;
  lib_EVP_PKEY_assign_RSA : ptr -> ptr -> world -> Z * world;
  lib_BIO_new_file : string -> string -> world -> ptr * world;
  lib_BIO_new_mem_buf : buffer -> Z -> world -> ptr * world;
  lib_BIO_free : ptr -> world -> Z * world;
  (* PEM_read_bio_X(bp, &x, cb, u): the returned pointer and the new [x] *)
  lib_PEM_read_bio_PrivateKey : ptr -> ptr -> world -> (ptr * ptr) * world;
  lib_PEM_read_bio_RSA_PUBKEY : ptr -> ptr -> world -> (ptr * ptr) * world;
  lib_PEM_read_bio_RSAPrivateKey : ptr -> ptr -> world -> (ptr * ptr) * world;
  lib_RSA_new : world -> ptr * world;
  lib_RSA_free : ptr -> world -> unit * world;
  lib_RSA_check_key : ptr -> world -> Z * world;
  lib_RSA_generate_key_ex : ptr -> Z -> ptr -> world -> Z * world;
  lib_BN_new : world -> ptr * world;
  lib_BN_zero : ptr -> world -> unit * world;
  lib_BN_free : ptr -> world -> unit * world;
  lib_BN_set_word : ptr -> Z -> world -> Z * world;
  lib_EVP_MD_CTX_create : world -> ptr * world;
  lib_EVP_MD_CTX_destroy : ptr -> world -> unit * world;
  lib_EVP_sha256 : world -> ptr * world;
  lib_EVP_SignInit_ex : ptr -> ptr -> world -> Z * world;
  lib_EVP_SignUpdate : ptr -> buffer -> Z -> world -> Z * world;
  (* EVP_SignFinal(ctx, sig, &s, pkey): result, new [sig], the stored [s] *)
  lib_EVP_SignFinal : ptr -> buffer -> ptr -> world -> (Z * buffer * Z) * world;
  lib_EVP_VerifyInit_ex : ptr -> ptr -> world -> Z * world;
  lib_EVP_VerifyUpdate : ptr -> buffer -> Z -> world -> Z * world;
  lib_EVP_VerifyFinal : ptr -> buffer -> Z -> ptr -> world -> Z * world
}.

Section Rsa.

Context {E : Env}.

(** The machine: the struct behind [rsa], the library's world, and the
    entry points called so far (oldest first). *)
Record machine : Type := mk_machine {
  obj : s_rsa;
  heap : world;
  trace : list prim
}.

Definition get_rsa : M machine s_rsa := fun m => (obj m, m).

Definition put_rsa (r : s_rsa) : M machine unit :=
  fun m => (tt, mk_machine r (heap m) (trace m)).

Definition set_key (p : ptr) : M machine unit :=
  rsa <- get_rsa ;;
  put_rsa (mk_rsa p (bn rsa) (md rsa) (isvalid rsa) (isprivate rsa)).

Definition set_bn (p : ptr) : M machine unit :=
  rsa <- get_rsa ;;
  put_rsa (mk_rsa (key rsa) p (md rsa) (isvalid rsa) (isprivate rsa)).

Definition set_md (p : ptr) : M machine unit :=
  rsa <- get_rsa ;;
  put_rsa (mk_rsa (key rsa) (bn rsa) p (isvalid rsa) (isprivate rsa)).

Definition set_isvalid (v : Z) : M machine unit :=
  rsa <- get_rsa ;;
  put_rsa (mk_rsa (key rsa) (bn rsa) (md rsa) v (isprivate rsa)).

Definition set_isprivate (v : Z) : M machine unit :=
  rsa <- get_rsa ;;
  put_rsa (mk_rsa (key rsa) (bn rsa) (md rsa) (isvalid rsa) v).

(** A call into the library: it sees and changes the world only, and is
    recorded. *)
Definition call {A : Type} (p : prim) (f : world -> A * world) : M machine A :=
  fun m => let (a, w) := f (heap m) in
           (a, mk_machine (obj m) w (trace m ++ [p])).

Definition i2d_PublicKey a pp := call P_i2d_PublicKey (lib_i2d_PublicKey a pp).
Definition d2i_PublicKey t a pp n :=
  call P_d2i_PublicKey (lib_d2i_PublicKey t a pp n).
Definition cryptoCalculateSHA256 hb hl ib il :=
  call P_cryptoCalculateSHA256 (lib_cryptoCalculateSHA256 hb hl ib il).
Definition OpenSSL_add_all_algorithms :=
  call P_OpenSSL_add_all_algorithms lib_OpenSSL_add_all_algorithms.
Definition EVP_PKEY_new := call P_EVP_PKEY_new lib_EVP_PKEY_new.
Definition EVP_PKEY_free k := call P_EVP_PKEY_free (lib_EVP_PKEY_free k).
Definition EVP_PKEY_size k := call P_EVP_PKEY_size (lib_EVP_PKEY_size k).
Definition EVP_PKEY_get1_RSA k :=
  call P_EVP_PKEY_get1_RSA (lib_EVP_PKEY_get1_RSA k).
Definition EVP_PKEY_assign_RSA k r :=
  call P_EVP_PKEY_assign_RSA (lib_EVP_PKEY_assign_RSA k r).
Definition BIO_new_file path mode :=
  call P_BIO_new_file (lib_BIO_new_file path mode).
Definition BIO_new_mem_buf b n := call P_BIO_new_mem_buf (lib_BIO_new_mem_buf b n).
Definition BIO_free b := call P_BIO_free (lib_BIO_free b).
Definition PEM_read_bio_PrivateKey b x :=
  call P_PEM_read_bio_PrivateKey (lib_PEM_read_bio_PrivateKey b x).
Definition PEM_read_bio_RSA_PUBKEY b x :=
  call P_PEM_read_bio_RSA_PUBKEY (lib_PEM_read_bio_RSA_PUBKEY b x).
Definition PEM_read_bio_RSAPrivateKey b x :=
  call P_PEM_read_bio_RSAPrivateKey (lib_PEM_read_bio_RSAPrivateKey b x).
Definition RSA_new := call P_RSA_new lib_RSA_new.
Definition RSA_free r := call P_RSA_free (lib_RSA_free r).
Definition RSA_check_key r := call P_RSA_check_key (lib_RSA_check_key r).
Definition RSA_generate_key_ex r bits e :=
  call P_RSA_generate_key_ex (lib_RSA_generate_key_ex r bits e).
Definition BN_new := call P_BN_new lib_BN_new.
Definition BN_zero b := call P_BN_zero (lib_BN_zero b).
Definition BN_free b := call P_BN_free (lib_BN_free b).
Definition BN_set_word b w := call P_BN_set_word (lib_BN_set_word b w).
Definition EVP_MD_CTX_create := call P_EVP_MD_CTX_create lib_EVP_MD_CTX_create.
Definition EVP_MD_CTX_destroy c :=
  call P_EVP_MD_CTX_destroy (lib_EVP_MD_CTX_destroy c).
Definition EVP_sha256 := call P_EVP_sha256 lib_EVP_sha256.
Definition EVP_SignInit_ex c t := call P_EVP_SignInit_ex (lib_EVP_SignInit_ex c t).
Definition EVP_SignUpdate c b n := call P_EVP_SignUpdate (lib_EVP_SignUpdate c b n).
Definition EVP_SignFinal c s k := call P_EVP_SignFinal (lib_EVP_SignFinal c s k).
Definition EVP_VerifyInit_ex c t :=
  call P_EVP_VerifyInit_ex (lib_EVP_VerifyInit_ex c t).
Definition EVP_VerifyUpdate c b n :=
  call P_EVP_VerifyUpdate (lib_EVP_VerifyUpdate c b n).
Definition EVP_VerifyFinal c s n k :=
  call P_EVP_VerifyFinal (lib_EVP_VerifyFinal c s n k).

(** ** The functions of [rsa.c]

    [debug] and [debugf] only write to the log and are left out. *)

(** Returns 1 if RSA structure contains a valid public key. *)
Definition rsaIsValid : M machine Z :=
  rsa <- get_rsa ;; ret (isvalid rsa).

(** Returns 1 if RSA structure contains a private key. *)
Definition rsaIsPrivate : M machine Z :=
  rsa <- get_rsa ;; ret (isprivate rsa).

(** Get size of DER encoded public key. *)
Definition rsaGetDERSize : M machine Z :=
  rsa <- get_rsa ;;
  '(len, _) <- i2d_PublicKey (key rsa) None ;;
  if 0 <? len then ret len else ret 0.

(** Get DER encoded public key.  Returns length if successful.  The
    second component is what [buf] holds afterwards. *)
Definition rsaGetDER (buf : buffer) (buf_size : Z) : M machine (Z * buffer) :=
  ptlen <- rsaGetDERSize ;;
  if (RSA_MINSIZE <? ptlen) && (ptlen <? buf_size) then
    rsa <- get_rsa ;;
    '(len, buf') <- i2d_PublicKey (key rsa) (Some buf) ;;
    if 0 <? len then ret (len, buf') else ret (0, buf')
  else
    ret (0, buf).

(** The local array [derbuf] of [rsaGetFingerprint], [RSA_MAXSIZE] bytes
    (its initial contents are never read). *)
Definition derbuf0 : buffer := repeat x00 (Z.to_nat RSA_MAXSIZE).

(** Get SHA-256 fingerprint of public key. *)
Definition rsaGetFingerprint (buf : buffer) (buf_size : Z)
  : M machine (Z * buffer) :=
  '(dersize, derbuf) <- rsaGetDER derbuf0 RSA_MAXSIZE ;;
  if 0 <? dersize then
    cryptoCalculateSHA256 buf buf_size derbuf dersize
  else
    ret (0, buf).

(** Loading private key from PEM encoded file. *)
Definition rsaImportKey (keypath : string) : M machine Z :=
  OpenSSL_add_all_algorithms ;;
  k <- EVP_PKEY_new ;;
  set_key k ;;
  in_ <- BIO_new_file keypath "r" ;;
  if in_ =? NULL then ret 0
  else
    rsa <- get_rsa ;;
    '(_, k') <- PEM_read_bio_PrivateKey in_ (key rsa) ;;
    set_key k' ;;
    BIO_free in_ ;;
    rsa <- get_rsa ;;
    rsakey <- EVP_PKEY_get1_RSA (key rsa) ;;
    chk <- RSA_check_key rsakey ;;
    if negb (chk =? 1) then ret 0
    else
      set_isvalid 1 ;;
      set_isprivate 1 ;;
      ret 1.

(** Generate RSA key pair. *)
Definition rsaGenerate (key_size : Z) : M machine Z :=
  set_isvalid 0 ;;
  if key_size <=? 0 then ret 0
  else
    rsakey <- RSA_new ;;
    if rsakey =? NULL then ret 0
    else
      rsa <- get_rsa ;;
      r1 <- BN_set_word (bn rsa) RSA_F4 ;;
      if r1 =? 0 then ret 0
      else
        r2 <- RSA_generate_key_ex rsakey key_size (bn rsa) ;;
        if r2 =? 0 then ret 0
        else
          chk <- RSA_check_key rsakey ;;
          if negb (chk =? 1) then ret 0
          else
            r3 <- EVP_PKEY_assign_RSA (key rsa) rsakey ;;
            if r3 =? 0 then ret 0
            else
              set_isvalid 1 ;;
              set_isprivate 1 ;;
              ret 1.

(** Load DER encoded public key.  [pubkey] is [None] for a NULL pointer. *)
Definition rsaLoadDER (pubkey : option buffer) (pubkey_size : Z) : M machine Z :=
  set_isvalid 0 ;;
  match pubkey with
  | Some bytes =>
      if RSA_MINSIZE <? pubkey_size then
        rsa <- get_rsa ;;
        d <- d2i_PublicKey EVP_PKEY_RSA (key rsa) bytes pubkey_size ;;
        if negb (d =? NULL) then
          set_isvalid 1 ;;
          set_isprivate 0 ;;
          ret 1
        else ret 0
      else ret 0
  | None => ret 0
  end.

(** Load PEM encoded public key. *)
Definition rsaLoadPEM (pubkey : option buffer) (pubkey_size : Z) : M machine Z :=
  set_isvalid 0 ;;
  match pubkey with
  | Some bytes =>
      if 0 <? pubkey_size then
        biopub <- BIO_new_mem_buf bytes pubkey_size ;;
        if negb (biopub =? NULL) then
          rsakey <- RSA_new ;;
          r <- (if negb (rsakey =? NULL) then
                  '(p, rsakey') <- PEM_read_bio_RSA_PUBKEY biopub rsakey ;;
                  if negb (p =? NULL) then
                    rsa <- get_rsa ;;
                    EVP_PKEY_assign_RSA (key rsa) rsakey' ;;
                    set_isvalid 1 ;;
                    set_isprivate 0 ;;
                    ret 1
                  else
                    RSA_free rsakey' ;;
                    ret 0
                else ret 0) ;;
          BIO_free biopub ;;
          ret r
        else ret 0
      else ret 0
  | None => ret 0
  end.

(** Load PEM encoded private key. *)
Definition rsaLoadPrivatePEM (privkey : option buffer) (privkey_size : Z)
  : M machine Z :=
  set_isvalid 0 ;;
  match privkey with
  | Some bytes =>
      if 0 <? privkey_size then
        biopriv <- BIO_new_mem_buf bytes privkey_size ;;
        if negb (biopriv =? NULL) then
          rsakey <- RSA_new ;;
          r <- (if negb (rsakey =? NULL) then
                  '(p, rsakey') <- PEM_read_bio_RSAPrivateKey biopriv rsakey ;;
                  if negb (p =? NULL) then
                    chk <- RSA_check_key rsakey' ;;
                    if chk =? 1 then
                      rsa <- get_rsa ;;
                      EVP_PKEY_assign_RSA (key rsa) rsakey' ;;
                      set_isvalid 1 ;;
                      set_isprivate 1 ;;
                      ret 1
                    else
                      RSA_free rsakey' ;;
                      ret 0
                  else
                    RSA_free rsakey' ;;
                    ret 0
                else ret 0) ;;
          BIO_free biopriv ;;
          ret r
        else ret 0
      else ret 0
  | None => ret 0
  end.

(** Return maximum size of a signature. *)
Definition rsaSignSize : M machine Z :=
  rsa <- get_rsa ;; EVP_PKEY_size (key rsa).

(** Generate signature.  Returns length of signature if successful.  The
    second component is what [sign_buf] holds afterwards. *)
Definition rsaSign (sign_buf : buffer) (sign_len : Z)
                   (in_buf : buffer) (in_len : Z) : M machine (Z * buffer) :=
  sign_maxlen <- rsaSignSize ;;
  if sign_len <? sign_maxlen then ret (0, sign_buf)
  else
    rsa <- get_rsa ;;
    sha <- EVP_sha256 ;;
    r1 <- EVP_SignInit_ex (md rsa) sha ;;
    if r1 =? 0 then ret (0, sign_buf)
    else
      r2 <- EVP_SignUpdate (md rsa) in_buf in_len ;;
      if r2 =? 0 then ret (0, sign_buf)
      else
        '(r3, sign_buf', s) <- EVP_SignFinal (md rsa) sign_buf (key rsa) ;;
        if r3 =? 0 then ret (0, sign_buf')
        else
          let len := int_of_uint s in
          if negb (0 <? len) then ret (0, sign_buf')
          else ret (len, sign_buf').

(** Verify signature.  Returns 1 if successful. *)
Definition rsaVerify (sign_buf : buffer) (sign_len : Z)
                     (in_buf : buffer) (in_len : Z) : M machine Z :=
  rsa <- get_rsa ;;
  sha <- EVP_sha256 ;;
  r1 <- EVP_VerifyInit_ex (md rsa) sha ;;
  if r1 =? 0 then ret 0
  else
    r2 <- EVP_VerifyUpdate (md rsa) in_buf in_len ;;
    if r2 =? 0 then ret 0
    else
      r3 <- EVP_VerifyFinal (md rsa) sign_buf sign_len (key rsa) ;;
      if r3 =? 0 then ret 0
      else ret 1.

(** Reset a RSA object. *)
Definition rsaReset : M machine unit :=
  set_isvalid 0 ;;
  set_isprivate 0.

(** Create a RSA object. *)
Definition rsaCreate : M machine Z :=
  b <- BN_new ;;
  set_bn b ;;
  if b =? NULL then
    BN_free b ;;
    ret 0
  else
    BN_zero b ;;
    k <- EVP_PKEY_new ;;
    set_key k ;;
    if negb (k =? NULL) then
      c <- EVP_MD_CTX_create ;;
      set_md c ;;
      if negb (c =? NULL) then
        rsaReset ;;
        ret 1
      else
        EVP_PKEY_free k ;;
        ret 0
    else ret 0.

(** Destroy a RSA object. *)
Definition rsaDestroy : M machine unit :=
  rsaReset ;;
  rsa <- get_rsa ;;
  EVP_MD_CTX_destroy (md rsa) ;;
  EVP_PKEY_free (key rsa) ;;
  BN_free (bn rsa).

End Rsa.

(** ** The object's life as a transition system *)

(** The operations a caller applies to one object, with their arguments. *)
Inductive op : Type :=
| Create
| Reset
| ImportPrivateFromFile (keypath : string)
| Generate (key_size : Z)
| LoadDER (pubkey : option buffer) (pubkey_size : Z)
| LoadPublicPEM (pubkey : option buffer) (pubkey_size : Z)
| LoadPrivatePEM (privkey : option buffer) (privkey_size : Z)
| Sign (sign_buf : buffer) (sign_len : Z) (in_buf : buffer) (in_len : Z)
| Verify (sign_buf : buffer) (sign_len : Z) (in_buf : buffer) (in_len : Z)
| GetDER (buf : buffer) (buf_size : Z)
| GetDERSize
| GetFingerprint (buf : buffer) (buf_size : Z).

Section Life.

Context {E : Env}.

(** One operation: the [int] it returns (0 for [rsaReset], which returns
    nothing) and the machine it leaves. *)
Definition exec (o : op) : M machine Z :=
  match o with
  | Create => rsaCreate
  | Reset => rsaReset ;; ret 0
  | ImportPrivateFromFile keypath => rsaImportKey keypath
  | Generate key_size => rsaGenerate key_size
  | LoadDER pubkey pubkey_size => rsaLoadDER pubkey pubkey_size
  | LoadPublicPEM pubkey pubkey_size => rsaLoadPEM pubkey pubkey_size
  | LoadPrivatePEM privkey privkey_size => rsaLoadPrivatePEM privkey privkey_size
  | Sign sign_buf sign_len in_buf in_len =>
      '(len, _) <- rsaSign sign_buf sign_len in_buf in_len ;; ret len
  | Verify sign_buf sign_len in_buf in_len =>
      rsaVerify sign_buf sign_len in_buf in_len
  | GetDER buf buf_size => '(len, _) <- rsaGetDER buf buf_size ;; ret len
  | GetDERSize => rsaGetDERSize
  | GetFingerprint buf buf_size =>
      '(len, _) <- rsaGetFingerprint buf buf_size ;; ret len
  end.

(** The four acquisition functions that open with [rsa->isvalid = 0]. *)
Definition clears_isvalid_first (o : op) : bool :=
  match o with
  | Generate _ | LoadDER _ _ | LoadPublicPEM _ _ | LoadPrivatePEM _ _ => true
  | _ => false
  end.

(** [o] is one of those four, it returns 0 from [m], and [m] has
    [isprivate] set. *)
Definition fails_on_private (o : op) (m : machine) : bool :=
  clears_isvalid_first o && (fst (exec o m) =? 0)
  && negb (isprivate (obj m) =? 0).

(** The machines an object goes through once [rsaCreate] has returned 1 on
    it (on whatever the memory held before), under any sequence of
    operations none of whose steps satisfies [avoid]. *)
Inductive reachable_avoiding (avoid : op -> machine -> bool)
  : machine -> Prop :=
| reach_created (m0 : machine) :
    fst (rsaCreate m0) = 1 ->
    reachable_avoiding avoid (snd (rsaCreate m0))
| reach_step (o : op) (m : machine) :
    reachable_avoiding avoid m ->
    avoid o m = false ->
    reachable_avoiding avoid (snd (exec o m)).

(** Every sequence of operations. *)
Definition reachable : machine -> Prop :=
  reachable_avoiding (fun _ _ => false).

(** [isprivate] set implies [isvalid] set. *)
Definition private_implies_valid (m : machine) : Prop :=
  isprivate (obj m) <> 0 -> isvalid (obj m) <> 0.

(** The key handle holds a public key that encodes: writing the encoding
    into [buf] yields the length that the size query announced. *)
Definition encodes_as_announced (m : machine) (buf : buffer) : Prop :=
  let '((n, _), w) := lib_i2d_PublicKey (key (obj m)) None (heap m) in
  fst (fst (lib_i2d_PublicKey (key (obj m)) (Some buf) w)) = n.

(** What the library answers along a complete run of [rsaSign]: the size
    [EVP_PKEY_size] reports, the results of [EVP_SignInit_ex],
    [EVP_SignUpdate] and [EVP_SignFinal], each called in the world its
    predecessor left, and the length [EVP_SignFinal] stored. *)
Definition sign_calls (m : machine) (sign_buf in_buf : buffer) (in_len : Z)
  : Z * Z * Z * Z * Z :=
  let rsa := obj m in
  let '(maxlen, w1) := lib_EVP_PKEY_size (key rsa) (heap m) in
  let '(sha, w2) := lib_EVP_sha256 w1 in
  let '(r1, w3) := lib_EVP_SignInit_ex (md rsa) sha w2 in
  let '(r2, w4) := lib_EVP_SignUpdate (md rsa) in_buf in_len w3 in
  let '((r3, _, s), _) := lib_EVP_SignFinal (md rsa) sign_buf (key rsa) w4 in
  (maxlen, r1, r2, r3, s).

End Life.

(** ** A small environment to run the functions in

    Every entry point succeeds; the world only fixes three numbers: the
    length of the key's DER encoding, the size [EVP_PKEY_size] reports and
    the length [EVP_SignFinal] stores.  [d2i_PublicKey] accepts exactly
    the inputs that open with the SEQUENCE tag [0x30]. *)
Record toy_world : Type := mk_toy {
  tw_der_len : Z;
  tw_pkey_size : Z;
  tw_sig_len : Z
}.

Definition toy : Env := {|
  world := toy_world;
  RSA_MINSIZE := 48;
  RSA_MAXSIZE := 416;
  lib_i2d_PublicKey := fun _ pp w =>
    ((tw_der_len w, match pp with Some b => b | None => [] end), w);
  lib_d2i_PublicKey := fun _ a pp _ w =>
    (match pp with x30 :: _ => 1 | _ => NULL end, w);
  lib_cryptoCalculateSHA256 := fun hb _ _ _ w => ((32, hb), w);
  lib_OpenSSL_add_all_algorithms := fun w => (tt, w);
  lib_EVP_PKEY_new := fun w => (1, w);
  lib_EVP_PKEY_free := fun _ w => (tt, w);
  lib_EVP_PKEY_size := fun _ w => (tw_pkey_size w, w);
  lib_EVP_PKEY_get1_RSA := fun _ w => (1, w);
  lib_EVP_PKEY_assign_RSA := fun _ _ w => (1, w);
  lib_BIO_new_file := fun _ _ w => (1, w);
  lib_BIO_new_mem_buf := fun _ _ w => (1, w);
  lib_BIO_free := fun _ w => (1, w);
  lib_PEM_read_bio_PrivateKey := fun _ x w => ((x, x), w);
  lib_PEM_read_bio_RSA_PUBKEY := fun _ x w => ((x, x), w);
  lib_PEM_read_bio_RSAPrivateKey := fun _ x w => ((x, x), w);
  lib_RSA_new := fun w => (1, w);
  lib_RSA_free := fun _ w => (tt, w);
  lib_RSA_check_key := fun _ w => (1, w);
  lib_RSA_generate_key_ex := fun _ _ _ w => (1, w);
  lib_BN_new := fun w => (1, w);
  lib_BN_zero := fun _ w => (tt, w);
  lib_BN_free := fun _ w => (tt, w);
  lib_BN_set_word := fun _ _ w => (1, w);
  lib_EVP_MD_CTX_create := fun w => (1, w);
  lib_EVP_MD_CTX_destroy := fun _ w => (tt, w);
  lib_EVP_sha256 := fun w => (1, w);
  lib_EVP_SignInit_ex := fun _ _ w => (1, w);
  lib_EVP_SignUpdate := fun _ _ _ w => (1, w);
  lib_EVP_SignFinal := fun _ sig _ w => ((1, sig, tw_sig_len w), w);
  lib_EVP_VerifyInit_ex := fun _ _ w => (1, w);
  lib_EVP_VerifyUpdate := fun _ _ _ w => (1, w);
  lib_EVP_VerifyFinal := fun _ _ _ _ w => (1, w)
|}.

(** Memory before [rsaCreate]: arbitrary field values, here 7 throughout,
    over a world with a 270-byte encoding and 256-byte signatures. *)
Definition toy_raw : @machine toy :=
  mk_machine (E := toy) (mk_rsa 7 7 7 7 7) (mk_toy 270 256 256) [].

(** The same, over a world whose [EVP_SignFinal] succeeds and stores 0. *)
Definition toy_raw_empty_sig : @machine toy :=
  mk_machine (E := toy) (mk_rsa 7 7 7 7 7) (mk_toy 270 256 0) [].

(** The object after [rsaCreate]. *)
Definition toy_created : @machine toy := snd (rsaCreate toy_raw).

(** The object after [rsaCreate] and a successful [rsaGenerate]. *)
Definition toy_generated : @machine toy :=
  snd (rsaGenerate 2048 toy_created).

Definition hello : buffer := [x68; x65; x6c; x6c; x6f].

(** Ten bytes that open like a DER public key. *)
Definition der_prefix : buffer :=
  [x30; x82; x01; x0a; x02; x82; x01; x01; x00; xc3].

(** The object after [rsaCreate], a successful [rsaGenerate] and a
    rejected one. *)
Definition toy_generate_failed : @machine toy :=
  snd (exec (Generate 0) (snd (exec (Generate 2048) toy_created))).

(** The object after [rsaCreate], a failed [rsaLoadDER] and a successful
    [rsaGenerate]. *)
Definition toy_loaded_late : @machine toy :=
  snd (exec (Generate 2048) (snd (exec (LoadDER (Some hello) 100) toy_created))).

(** A created object whose key encodes to 500 bytes, more than
    [RSA_MAXSIZE]. *)
Definition toy_big_key : @machine toy :=
  snd (rsaCreate (mk_machine (E := toy) (mk_rsa 7 7 7 7 7) (mk_toy 500 256 256) [])).

(** ** Further vocabulary for the remaining functions *)

Section Calls.

Context {E : Env}.

(** What the library answers along a complete run of [rsaVerify]: the
    results of [EVP_VerifyInit_ex], [EVP_VerifyUpdate] and
    [EVP_VerifyFinal], each called in the world its predecessor left. *)
Definition verify_calls (m : machine) (sign_buf : buffer) (sign_len : Z)
    (in_buf : buffer) (in_len : Z) : Z * Z * Z :=
  let rsa := obj m in
  let '(sha, w1) := lib_EVP_sha256 (heap m) in
  let '(r1, w2) := lib_EVP_VerifyInit_ex (md rsa) sha w1 in
  let '(r2, w3) := lib_EVP_VerifyUpdate (md rsa) in_buf in_len w2 in
  let '(r3, _) := lib_EVP_VerifyFinal (md rsa) sign_buf sign_len (key rsa) w3 in
  (r1, r2, r3).

(** The three pointers the allocators answer along a complete run of
    [rsaCreate]: [BN_new], then (after [BN_zero]) [EVP_PKEY_new], then
    [EVP_MD_CTX_create]. *)
Definition create_calls (m : machine) : ptr * ptr * ptr :=
  let '(b, w1) := lib_BN_new (heap m) in
  let '(_, w2) := lib_BN_zero b w1 in
  let '(k, w3) := lib_EVP_PKEY_new w2 in
  let '(c, _) := lib_EVP_MD_CTX_create w3 in
  (b, k, c).

(** The first answers along a run of [rsaImportKey]: the fresh handle of
    [EVP_PKEY_new] and the stream of [BIO_new_file]. *)
Definition import_calls (m : machine) (keypath : string) : ptr * ptr :=
  let '(_, w1) := lib_OpenSSL_add_all_algorithms (heap m) in
  let '(k, w2) := lib_EVP_PKEY_new w1 in
  let '(in_, _) := lib_BIO_new_file keypath "r" w2 in
  (k, in_).

(** The flag [isprivate] an acquisition function sets when it succeeds. *)
Definition acquired_private (o : op) : option Z :=
  match o with
  | ImportPrivateFromFile _ | Generate _ | LoadPrivatePEM _ _ => Some 1
  | LoadDER _ _ | LoadPublicPEM _ _ => Some 0
  | _ => None
  end.

(** The two functions that store a handle into the struct. *)
Definition replaces_handles (o : op) : bool :=
  match o with
  | Create | ImportPrivateFromFile _ => true
  | _ => false
  end.

(** The two in-memory PEM loaders. *)
Definition loads_pem (o : op) : bool :=
  match o with
  | LoadPublicPEM _ _ | LoadPrivatePEM _ _ => true
  | _ => false
  end.

End Calls.

(** A second environment, [toy] with four answers turned into knobs:
    the pointers of [EVP_PKEY_new] and [BIO_new_file] and the results of
    [RSA_check_key] and [EVP_VerifyFinal]. *)
Record sim_config : Type := mk_sim {
  sc_EVP_PKEY_new : ptr;
  sc_BIO_new_file : ptr;
  sc_RSA_check_key : Z;
  sc_EVP_VerifyFinal : Z
}.

Definition sim (c : sim_config) : Env := {|
  world := toy_world;
  RSA_MINSIZE := 48;
  RSA_MAXSIZE := 416;
  lib_i2d_PublicKey := @lib_i2d_PublicKey toy;
  lib_d2i_PublicKey := @lib_d2i_PublicKey toy;
  lib_cryptoCalculateSHA256 := @lib_cryptoCalculateSHA256 toy;
  lib_OpenSSL_add_all_algorithms := @lib_OpenSSL_add_all_algorithms toy;
  lib_EVP_PKEY_new := fun w => (sc_EVP_PKEY_new c, w);
  lib_EVP_PKEY_free := @lib_EVP_PKEY_free toy;
  lib_EVP_PKEY_size := @lib_EVP_PKEY_size toy;
  lib_EVP_PKEY_get1_RSA := @lib_EVP_PKEY_get1_RSA toy;
  lib_EVP_PKEY_assign_RSA := @lib_EVP_PKEY_assign_RSA toy;
  lib_BIO_new_file := fun _ _ w => (sc_BIO_new_file c, w);
  lib_BIO_new_mem_buf := @lib_BIO_new_mem_buf toy;
  lib_BIO_free := @lib_BIO_free toy;
  lib_PEM_read_bio_PrivateKey := @lib_PEM_read_bio_PrivateKey toy;
  lib_PEM_read_bio_RSA_PUBKEY := @lib_PEM_read_bio_RSA_PUBKEY toy;
  lib_PEM_read_bio_RSAPrivateKey := @lib_PEM_read_bio_RSAPrivateKey toy;
  lib_RSA_new := @lib_RSA_new toy;
  lib_RSA_free := @lib_RSA_free toy;
  lib_RSA_check_key := fun _ w => (sc_RSA_check_key c, w);
  lib_RSA_generate_key_ex := @lib_RSA_generate_key_ex toy;
  lib_BN_new := @lib_BN_new toy;
  lib_BN_zero := @lib_BN_zero toy;
  lib_BN_free := @lib_BN_free toy;
  lib_BN_set_word := @lib_BN_set_word toy;
  lib_EVP_MD_CTX_create := @lib_EVP_MD_CTX_create toy;
  lib_EVP_MD_CTX_destroy := @lib_EVP_MD_CTX_destroy toy;
  lib_EVP_sha256 := @lib_EVP_sha256 toy;
  lib_EVP_SignInit_ex := @lib_EVP_SignInit_ex toy;
  lib_EVP_SignUpdate := @lib_EVP_SignUpdate toy;
  lib_EVP_SignFinal := @lib_EVP_SignFinal toy;
  lib_EVP_VerifyInit_ex := @lib_EVP_VerifyInit_ex toy;
  lib_EVP_VerifyUpdate := @lib_EVP_VerifyUpdate toy;
  lib_EVP_VerifyFinal := fun _ _ _ _ w => (sc_EVP_VerifyFinal c, w)
|}.

(** [EVP_PKEY_new] out of memory. *)
Definition no_pkey : sim_config := mk_sim NULL 1 1 1.

(** The key file cannot be opened. *)
Definition no_file : sim_config := mk_sim 2 NULL 1 1.

(** [RSA_check_key] reports an error. *)
Definition check_error : sim_config := mk_sim 1 1 (-1) 1.

(** [EVP_VerifyFinal] reports an error. *)
Definition verify_error : sim_config := mk_sim 1 1 1 (-1).

(** Uninitialised memory over a [sim] world. *)
Definition sim_raw (c : sim_config) : @machine (sim c) :=
  mk_machine (E := sim c) (mk_rsa 7 7 7 7 7) (mk_toy 270 256 256) [].

(** An object holding a private key, over a [sim] world. *)
Definition sim_private (c : sim_config) : @machine (sim c) :=
  mk_machine (E := sim c) (mk_rsa 1 1 1 1 1) (mk_toy 270 256 256) [].

(** A created object over a world whose [EVP_SignFinal] stores
    [2^32 - 1]. *)
Definition toy_huge_sig : @machine toy :=
  snd (rsaCreate
         (mk_machine (E := toy) (mk_rsa 7 7 7 7 7) (mk_toy 270 256 4294967295) [])).

(** A created object whose key encodes to 40 bytes, fewer than
    [RSA_MINSIZE]. *)
Definition toy_small_key : @machine toy :=
  snd (rsaCreate
         (mk_machine (E := toy) (mk_rsa 7 7 7 7 7) (mk_toy 40 256 256) [])).

(** * Properties *)

(** ** Proof steps shared by the lemmas below *)

(** Open the monad and the accessors of the machine. *)
Ltac open_monad :=
  unfold bind, ret, call, get_rsa, put_rsa,
    set_key, set_bn, set_md, set_isvalid, set_isprivate in *.

(** Name the result of the next library call (or test) the run meets. *)
Ltac next_outcome :=
  match goal with
  | |- context [match ?e with _ => _ end] =>
      lazymatch e with
      | context [match _ with _ => _ end] => fail
      | _ => destruct e eqn:?
      end
  end.

Ltac run_through := repeat (cbn in *; try next_outcome).

Section Effects.

Context {E : Env}.

(** *** What each function does to the two flags *)

Lemma rsaGenerate_flags (key_size : Z) (m : machine) :
  let r := fst (rsaGenerate key_size m) in
  let m' := snd (rsaGenerate key_size m) in
  (r = 1 /\ isvalid (obj m') = 1 /\ isprivate (obj m') = 1) \/
  (r = 0 /\ isvalid (obj m') = 0 /\ isprivate (obj m') = isprivate (obj m)).
Proof.
  unfold rsaGenerate, RSA_new, BN_set_word, RSA_generate_key_ex,
    RSA_check_key, EVP_PKEY_assign_RSA.
  open_monad. run_through; auto.
Qed.

Lemma rsaLoadDER_flags (pubkey : option buffer) (pubkey_size : Z) (m : machine) :
  let r := fst (rsaLoadDER pubkey pubkey_size m) in
  let m' := snd (rsaLoadDER pubkey pubkey_size m) in
  (r = 1 /\ isvalid (obj m') = 1 /\ isprivate (obj m') = 0) \/
  (r = 0 /\ isvalid (obj m') = 0 /\ isprivate (obj m') = isprivate (obj m)).
Proof.
  unfold rsaLoadDER, d2i_PublicKey.
  open_monad. run_through; auto.
Qed.

Lemma rsaLoadPEM_flags (pubkey : option buffer) (pubkey_size : Z) (m : machine) :
  let r := fst (rsaLoadPEM pubkey pubkey_size m) in
  let m' := snd (rsaLoadPEM pubkey pubkey_size m) in
  (r = 1 /\ isvalid (obj m') = 1 /\ isprivate (obj m') = 0) \/
  (r = 0 /\ isvalid (obj m') = 0 /\ isprivate (obj m') = isprivate (obj m)).
Proof.
  unfold rsaLoadPEM, BIO_new_mem_buf, RSA_new, PEM_read_bio_RSA_PUBKEY,
    EVP_PKEY_assign_RSA, RSA_free, BIO_free.
  open_monad. run_through; auto.
Qed.

Lemma rsaLoadPrivatePEM_flags (privkey : option buffer) (privkey_size : Z)
    (m : machine) :
  let r := fst (rsaLoadPrivatePEM privkey privkey_size m) in
  let m' := snd (rsaLoadPrivatePEM privkey privkey_size m) in
  (r = 1 /\ isvalid (obj m') = 1 /\ isprivate (obj m') = 1) \/
  (r = 0 /\ isvalid (obj m') = 0 /\ isprivate (obj m') = isprivate (obj m)).
Proof.
  unfold rsaLoadPrivatePEM, BIO_new_mem_buf, RSA_new,
    PEM_read_bio_RSAPrivateKey, RSA_check_key, EVP_PKEY_assign_RSA,
    RSA_free, BIO_free.
  open_monad. run_through; auto.
Qed.

(** [rsaImportKey] does not open with [rsa->isvalid = 0]: when it returns
    0 both flags are what they were. *)
Lemma rsaImportKey_flags (keypath : string) (m : machine) :
  let r := fst (rsaImportKey keypath m) in
  let m' := snd (rsaImportKey keypath m) in
  (r = 1 /\ isvalid (obj m') = 1 /\ isprivate (obj m') = 1) \/
  (r = 0 /\ isvalid (obj m') = isvalid (obj m)
         /\ isprivate (obj m') = isprivate (obj m)).
Proof.
  unfold rsaImportKey, OpenSSL_add_all_algorithms, EVP_PKEY_new,
    BIO_new_file, PEM_read_bio_PrivateKey, BIO_free, EVP_PKEY_get1_RSA,
    RSA_check_key.
  open_monad. run_through; auto.
Qed.

Lemma rsaCreate_flags (m : machine) :
  let r := fst (rsaCreate m) in
  let m' := snd (rsaCreate m) in
  (r = 1 /\ isvalid (obj m') = 0 /\ isprivate (obj m') = 0) \/
  (r = 0 /\ isvalid (obj m') = isvalid (obj m)
         /\ isprivate (obj m') = isprivate (obj m)).
Proof.
  unfold rsaCreate, rsaReset, BN_new, BN_free, BN_zero, EVP_PKEY_new,
    EVP_MD_CTX_create, EVP_PKEY_free.
  open_monad. run_through; auto.
Qed.

(** *** The functions that only read the struct *)

Lemma rsaGetDERSize_obj (m : machine) :
  obj (snd (rsaGetDERSize m)) = obj m.
Proof.
  unfold rsaGetDERSize, i2d_PublicKey.
  open_monad. run_through; reflexivity.
Qed.

Lemma rsaGetDER_obj (buf : buffer) (buf_size : Z) (m : machine) :
  obj (snd (rsaGetDER buf buf_size m)) = obj m.
Proof.
  unfold rsaGetDER, rsaGetDERSize, i2d_PublicKey.
  open_monad. run_through; reflexivity.
Qed.

Lemma rsaGetFingerprint_obj (buf : buffer) (buf_size : Z) (m : machine) :
  obj (snd (rsaGetFingerprint buf buf_size m)) = obj m.
Proof.
  unfold rsaGetFingerprint, cryptoCalculateSHA256.
  open_monad.
  pose proof (rsaGetDER_obj derbuf0 RSA_MAXSIZE m) as Hder.
  destruct (rsaGetDER derbuf0 RSA_MAXSIZE m) as [[dersize derbuf] m1].
  cbn in *. run_through; assumption.
Qed.

Lemma rsaSign_obj (sign_buf : buffer) (sign_len : Z) (in_buf : buffer)
    (in_len : Z) (m : machine) :
  obj (snd (rsaSign sign_buf sign_len in_buf in_len m)) = obj m.
Proof.
  unfold rsaSign, rsaSignSize, EVP_PKEY_size, EVP_sha256, EVP_SignInit_ex,
    EVP_SignUpdate, EVP_SignFinal.
  open_monad. run_through; reflexivity.
Qed.

Lemma rsaVerify_obj (sign_buf : buffer) (sign_len : Z) (in_buf : buffer)
    (in_len : Z) (m : machine) :
  obj (snd (rsaVerify sign_buf sign_len in_buf in_len m)) = obj m.
Proof.
  unfold rsaVerify, EVP_sha256, EVP_VerifyInit_ex, EVP_VerifyUpdate,
    EVP_VerifyFinal.
  open_monad. run_through; reflexivity.
Qed.

(** Projections of a run followed by dropping the output buffer. *)
Lemma drop_buffer_fst {A B S : Type} (c : M S (A * B)) (s : S) :
  fst (('(a, _) <- c ;; ret a) s) = fst (fst (c s)).
Proof. unfold bind, ret. destruct (c s) as [[a b] s']. reflexivity. Qed.

Lemma drop_buffer_snd {A B S : Type} (c : M S (A * B)) (s : S) :
  snd (('(a, _) <- c ;; ret a) s) = snd (c s).
Proof. unfold bind, ret. destruct (c s) as [[a b] s']. reflexivity. Qed.

(** *** One step of the object's life *)

(** Each operation either establishes one of the three flag settings
    private/public/invalid, or leaves both flags alone, or is one of the
    four functions that clear [isvalid] first, returns 0 and has changed
    nothing but [isvalid]. *)
Lemma exec_flags (o : op) (m : machine) :
  let m' := snd (exec o m) in
  (isvalid (obj m') = 1 /\ isprivate (obj m') = 1) \/
  (isvalid (obj m') = 1 /\ isprivate (obj m') = 0) \/
  (isvalid (obj m') = 0 /\ isprivate (obj m') = 0) \/
  (isvalid (obj m') = isvalid (obj m) /\
   isprivate (obj m') = isprivate (obj m)) \/
  (clears_isvalid_first o = true /\ fst (exec o m) = 0 /\
   isvalid (obj m') = 0 /\ isprivate (obj m') = isprivate (obj m)).
Proof.
  destruct o; cbn [exec clears_isvalid_first].
  - destruct (rsaCreate_flags m) as [H | H]; cbn in H; tauto.
  - cbn. tauto.
  - destruct (rsaImportKey_flags keypath m) as [H | H]; cbn in H; tauto.
  - destruct (rsaGenerate_flags key_size m) as [H | H]; cbn in H; tauto.
  - destruct (rsaLoadDER_flags pubkey pubkey_size m) as [H | H];
      cbn in H; tauto.
  - destruct (rsaLoadPEM_flags pubkey pubkey_size m) as [H | H];
      cbn in H; tauto.
  - destruct (rsaLoadPrivatePEM_flags privkey privkey_size m) as [H | H];
      cbn in H; tauto.
  - rewrite drop_buffer_snd, rsaSign_obj. tauto.
  - rewrite rsaVerify_obj. tauto.
  - rewrite drop_buffer_snd, rsaGetDER_obj. tauto.
  - rewrite rsaGetDERSize_obj. tauto.
  - rewrite drop_buffer_snd, rsaGetFingerprint_obj. tauto.
Qed.

Lemma exec_keeps_private_implies_valid (o : op) (m : machine) :
  private_implies_valid m ->
  fails_on_private o m = false ->
  private_implies_valid (snd (exec o m)).
Proof.
  unfold private_implies_valid, fails_on_private.
  intros Hinv Hok.
  destruct (exec_flags o m) as [H | [H | [H | [H | H]]]]; cbn in H.
  - lia.
  - lia.
  - lia.
  - destruct H as [Hv Hp]. rewrite Hv, Hp. exact Hinv.
  - destruct H as (Hc & Hr & Hv & Hp).
    rewrite Hc, Hr in Hok. cbn in Hok.
    apply negb_false_iff, Z.eqb_eq in Hok.
    rewrite Hp, Hok. intros Habs. contradiction.
Qed.

(** *** The library calls behind [rsaGetDER] and [rsaSign] *)

(** With a key that encodes as announced, [rsaGetDER] returns the size
    [rsaGetDERSize] computes when that size lies strictly between
    [RSA_MINSIZE] and the capacity, and 0 when it does not. *)
Lemma rsaGetDER_formula (m : machine) (buf : buffer) (buf_size : Z) :
  encodes_as_announced m buf ->
  fst (fst (rsaGetDER buf buf_size m)) =
  if (RSA_MINSIZE <? fst (rsaGetDERSize m)) && (fst (rsaGetDERSize m) <? buf_size)
  then fst (rsaGetDERSize m) else 0.
Proof.
  unfold encodes_as_announced, rsaGetDER, rsaGetDERSize, i2d_PublicKey.
  open_monad. intros Hsame.
  destruct (lib_i2d_PublicKey (key (obj m)) None (heap m)) as [[n b0] w].
  destruct (lib_i2d_PublicKey (key (obj m)) (Some buf) w) as [[n' b1] w'] eqn:Hw.
  cbn in Hsame. subst n'. cbn.
  destruct (0 <? n) eqn:Hn; cbn;
    match goal with
    | |- context [if ?c then _ else _] => destruct c; cbn
    end;
    rewrite ?Hw; cbn; rewrite ?Hn; reflexivity.
Qed.

(** [rsaSign] as a function of what the library answers. *)
Lemma rsaSign_formula (m : machine) (sign_buf : buffer) (sign_len : Z)
    (in_buf : buffer) (in_len : Z) :
  let '(maxlen, r1, r2, r3, s) := sign_calls m sign_buf in_buf in_len in
  fst (fst (rsaSign sign_buf sign_len in_buf in_len m)) =
  if sign_len <? maxlen then 0
  else if r1 =? 0 then 0
  else if r2 =? 0 then 0
  else if r3 =? 0 then 0
  else if negb (0 <? int_of_uint s) then 0
  else int_of_uint s.
Proof.
  unfold sign_calls, rsaSign, rsaSignSize, EVP_PKEY_size, EVP_sha256,
    EVP_SignInit_ex, EVP_SignUpdate, EVP_SignFinal.
  open_monad. cbn.
  destruct (lib_EVP_PKEY_size (key (obj m)) (heap m)) as [maxlen w1].
  destruct (lib_EVP_sha256 w1) as [sha w2] eqn:H0.
  destruct (lib_EVP_SignInit_ex (md (obj m)) sha w2) as [r1 w3] eqn:H1.
  destruct (lib_EVP_SignUpdate (md (obj m)) in_buf in_len w3) as [r2 w4] eqn:H2.
  destruct (lib_EVP_SignFinal (md (obj m)) sign_buf (key (obj m)) w4)
    as [[[r3 sig] s] w5] eqn:H3.
  cbn.
  destruct (sign_len <? maxlen); cbn; [reflexivity |].
  rewrite H0; cbn. rewrite H1; cbn.
  destruct (r1 =? 0); cbn; [reflexivity |].
  rewrite H2; cbn.
  destruct (r2 =? 0); cbn; [reflexivity |].
  rewrite H3; cbn.
  destruct (r3 =? 0); cbn; [reflexivity |].
  destruct (0 <? int_of_uint s); reflexivity.
Qed.

(** ** The claims *)

(** C1, as amended.  In every state an object reaches after [rsaCreate]
    has returned 1, through any sequence of Create, Reset,
    ImportPrivateFromFile, Generate, LoadDER, LoadPublicPEM,
    LoadPrivatePEM, Sign, Verify, GetDER, GetDERSize and GetFingerprint
    in which no Generate, LoadDER, LoadPublicPEM or LoadPrivatePEM call
    fails on an object whose [isprivate] is set, [isprivate] set implies
    [isvalid] set.  (Such a failing call clears [isvalid] and keeps
    [isprivate].) *)
Theorem private_implies_valid_unless_failed_on_private (m : machine) :
  reachable_avoiding fails_on_private m -> private_implies_valid m.
Proof.
  induction 1 as [m0 Hcreated | o m Hreach IH Hok].
  - unfold private_implies_valid.
    destruct (rsaCreate_flags m0) as [H | H]; cbn in H; lia.
  - apply exec_keeps_private_implies_valid; assumption.
Qed.

(** C2, as amended.  Whenever Generate, LoadDER, LoadPublicPEM or
    LoadPrivatePEM returns failure, [isvalid] is 0 afterwards whatever the
    state before the call, and [isprivate] is what it was before the
    call. *)
Theorem failed_acquisition_clears_isvalid_only (o : op) (m : machine) :
  clears_isvalid_first o = true ->
  fst (exec o m) = 0 ->
  isvalid (obj (snd (exec o m))) = 0 /\
  isprivate (obj (snd (exec o m))) = isprivate (obj m).
Proof.
  intros Hkind Hfail.
  destruct o; cbn in Hkind; try discriminate; cbn [exec] in *.
  - pose proof (rsaGenerate_flags key_size m) as H.
    cbv zeta in H. destruct H as [H | H]; [lia | tauto].
  - pose proof (rsaLoadDER_flags pubkey pubkey_size m) as H.
    cbv zeta in H. destruct H as [H | H]; [lia | tauto].
  - pose proof (rsaLoadPEM_flags pubkey pubkey_size m) as H.
    cbv zeta in H. destruct H as [H | H]; [lia | tauto].
  - pose proof (rsaLoadPrivatePEM_flags privkey privkey_size m) as H.
    cbv zeta in H. destruct H as [H | H]; [lia | tauto].
Qed.

(** C3.  For a valid object, one whose flag is set and whose key handle
    holds a public key that encodes as announced, and every capacity:
    [rsaGetDER] returns the encoded length when the computed DER size is
    strictly greater than [RSA_MINSIZE] and strictly less than the
    capacity, and 0 in every other case.  In particular it returns 0
    whenever the capacity is at most the size, and with capacity size+1
    it returns the size provided the size exceeds [RSA_MINSIZE]. *)
Theorem rsaGetDER_bounds (m : machine) (buf : buffer) (buf_size : Z) :
  isvalid (obj m) <> 0 ->
  encodes_as_announced m buf ->
  let size := fst (rsaGetDERSize m) in
  let len := fun capacity => fst (fst (rsaGetDER buf capacity m)) in
  len buf_size =
    (if (RSA_MINSIZE <? size) && (size <? buf_size) then size else 0) /\
  (buf_size <= size -> len buf_size = 0) /\
  (len size = 0) /\
  (RSA_MINSIZE < size -> len (size + 1) = size).
Proof.
  intros _ Henc size len. subst len. cbn beta.
  rewrite !(rsaGetDER_formula m buf _ Henc). fold size.
  repeat split.
  - intros Hcap. replace (size <? buf_size) with false by (symmetry; apply Z.ltb_ge; lia).
    rewrite andb_false_r. reflexivity.
  - rewrite Z.ltb_irrefl, andb_false_r. reflexivity.
  - intros Hmin.
    replace (RSA_MINSIZE <? size) with true by (symmetry; apply Z.ltb_lt; lia).
    replace (size <? size + 1) with true by (symmetry; apply Z.ltb_lt; lia).
    reflexivity.
Qed.

(** C4.  [rsaSign] returns 0 whenever the output capacity is strictly
    smaller than [rsaSignSize] for the current key; it returns 0 whenever
    the digest init, update or finalize call fails; otherwise it returns
    the actual signature length, the strictly positive length that
    [EVP_SignFinal] stored (a stored length that is not positive as an
    [int] is answered with 0 as well).  What it returns is 0 or strictly
    positive in every case.  None of this depends on the flags, so it
    holds in particular with [isprivate] set. *)
Theorem rsaSign_result (m : machine) (sign_buf : buffer) (sign_len : Z)
    (in_buf : buffer) (in_len : Z) :
  let len := fst (fst (rsaSign sign_buf sign_len in_buf in_len m)) in
  let '(maxlen, r1, r2, r3, s) := sign_calls m sign_buf in_buf in_len in
  maxlen = fst (rsaSignSize m) /\
  (sign_len < fst (rsaSignSize m) -> len = 0) /\
  (r1 = 0 \/ r2 = 0 \/ r3 = 0 -> len = 0) /\
  (fst (rsaSignSize m) <= sign_len -> r1 <> 0 -> r2 <> 0 -> r3 <> 0 ->
   0 < int_of_uint s -> len = int_of_uint s) /\
  (fst (rsaSignSize m) <= sign_len -> r1 <> 0 -> r2 <> 0 -> r3 <> 0 ->
   int_of_uint s <= 0 -> len = 0) /\
  (len = 0 \/ 0 < len).
Proof.
  intros len. subst len.
  pose proof (rsaSign_formula m sign_buf sign_len in_buf in_len) as Hf.
  assert (Hmax : fst (fst (fst (fst (sign_calls m sign_buf in_buf in_len))))
                 = fst (rsaSignSize m)).
  { unfold sign_calls, rsaSignSize, EVP_PKEY_size. open_monad.
    run_through; reflexivity. }
  destruct (sign_calls m sign_buf in_buf in_len) as [[[[maxlen r1] r2] r3] s].
  cbn [fst] in Hmax. rewrite Hf. rewrite <- Hmax.
  destruct (Z.ltb_spec sign_len maxlen);
    destruct (Z.eqb_spec r1 0); destruct (Z.eqb_spec r2 0);
    destruct (Z.eqb_spec r3 0); destruct (Z.ltb_spec 0 (int_of_uint s));
    cbn; repeat split; intros; try reflexivity; try lia; tauto.
Qed.

(** C5, as amended.  When the declared length is less than or equal to
    [RSA_MINSIZE], [rsaLoadDER] returns failure without any call into the
    library (the bytes are never handed to the decoder, whatever they
    are); afterwards [isvalid] is 0 and [isprivate] is what it was before
    the call. *)
Theorem rsaLoadDER_short_input (pubkey : option buffer) (pubkey_size : Z)
    (m : machine) :
  pubkey_size <= RSA_MINSIZE ->
  let m' := snd (rsaLoadDER pubkey pubkey_size m) in
  fst (rsaLoadDER pubkey pubkey_size m) = 0 /\
  trace m' = trace m /\
  heap m' = heap m /\
  isvalid (obj m') = 0 /\
  isprivate (obj m') = isprivate (obj m).
Proof.
  intros Hshort. unfold rsaLoadDER. open_monad.
  replace (RSA_MINSIZE <? pubkey_size) with false
    by (symmetry; apply Z.ltb_ge; lia).
  destruct pubkey; cbn; auto.
Qed.

(** C6, as amended.  [rsaGenerate] with a bit length less than or equal
    to 0 returns failure without any call into the library, and
    immediately afterwards [isvalid] is 0; nothing else has changed, and
    [rsaSign], [rsaVerify] and [rsaGetDER], which do not consult the flag,
    return afterwards what they would have returned before the call. *)
Theorem rsaGenerate_nonpositive_size (key_size : Z) (m : machine) :
  key_size <= 0 ->
  let m' := snd (rsaGenerate key_size m) in
  fst (rsaGenerate key_size m) = 0 /\
  isvalid (obj m') = 0 /\
  m' = mk_machine
         (mk_rsa (key (obj m)) (bn (obj m)) (md (obj m)) 0 (isprivate (obj m)))
         (heap m) (trace m) /\
  (forall sign_buf sign_len in_buf in_len,
     fst (rsaSign sign_buf sign_len in_buf in_len m') =
     fst (rsaSign sign_buf sign_len in_buf in_len m)) /\
  (forall sign_buf sign_len in_buf in_len,
     fst (rsaVerify sign_buf sign_len in_buf in_len m') =
     fst (rsaVerify sign_buf sign_len in_buf in_len m)) /\
  (forall buf buf_size,
     fst (rsaGetDER buf buf_size m') = fst (rsaGetDER buf buf_size m)).
Proof.
  intros Hsize. unfold rsaGenerate. open_monad.
  replace (key_size <=? 0) with true by (symmetry; apply Z.leb_le; lia).
  cbn. repeat split.
  - intros. unfold rsaSign, rsaSignSize, EVP_PKEY_size, EVP_sha256,
      EVP_SignInit_ex, EVP_SignUpdate, EVP_SignFinal.
    open_monad. run_through; reflexivity.
  - intros. unfold rsaVerify, EVP_sha256, EVP_VerifyInit_ex,
      EVP_VerifyUpdate, EVP_VerifyFinal.
    open_monad. run_through; reflexivity.
  - intros. unfold rsaGetDER, rsaGetDERSize, i2d_PublicKey.
    open_monad. run_through; reflexivity.
Qed.

(** C7.  In every state, [rsaReset] sets [isvalid] and [isprivate] to 0
    and leaves the key handle, the scratch value and the digest context
    as they were: the three pointers are unchanged and no call into the
    library is made, so nothing is released or allocated. *)
Theorem rsaReset_keeps_resources (m : machine) :
  let m' := snd (rsaReset m) in
  isvalid (obj m') = 0 /\ isprivate (obj m') = 0 /\
  key (obj m') = key (obj m) /\
  bn (obj m') = bn (obj m) /\
  md (obj m') = md (obj m) /\
  heap m' = heap m /\
  trace m' = trace m.
Proof.
  unfold rsaReset. open_monad. cbn. repeat split.
Qed.

(** C8.  [rsaGetFingerprint] stages the encoding in [derbuf], a buffer of
    [RSA_MAXSIZE] bytes, with [RSA_MAXSIZE] as capacity: whenever the
    DER-encoded size of the public key is greater than or equal to
    [RSA_MAXSIZE] or less than or equal to [RSA_MINSIZE] it returns 0,
    whatever output buffer and capacity the caller supplies, having asked
    the library for the size only. *)
Theorem rsaGetFingerprint_size_out_of_range (m : machine) (buf : buffer)
    (buf_size : Z) :
  RSA_MAXSIZE <= fst (rsaGetDERSize m) \/ fst (rsaGetDERSize m) <= RSA_MINSIZE ->
  List.length derbuf0 = Z.to_nat RSA_MAXSIZE /\
  fst (fst (rsaGetFingerprint buf buf_size m)) = 0 /\
  trace (snd (rsaGetFingerprint buf buf_size m)) = trace m ++ [P_i2d_PublicKey].
Proof.
  intros Hsize. split; [apply repeat_length |].
  unfold rsaGetFingerprint, rsaGetDER. open_monad.
  assert (Htr : trace (snd (rsaGetDERSize m)) = trace m ++ [P_i2d_PublicKey]).
  { unfold rsaGetDERSize, i2d_PublicKey. open_monad. run_through; reflexivity. }
  destruct (rsaGetDERSize m) as [ptlen m1]. cbn in *.
  replace ((RSA_MINSIZE <? ptlen) && (ptlen <? RSA_MAXSIZE)) with false.
  - cbn. auto.
  - symmetry. apply andb_false_iff.
    destruct Hsize; [right | left]; apply Z.ltb_ge; lia.
Qed.

(** C9.  [rsaSign], [rsaVerify] and [rsaGetDER] never modify [isvalid]
    and [isprivate]: after any call to any of them both flags equal their
    values before the call. *)
Theorem read_side_keeps_flags (m : machine) (sign_buf : buffer) (sign_len : Z)
    (in_buf : buffer) (in_len : Z) (buf : buffer) (buf_size : Z) :
  (isvalid (obj (snd (rsaSign sign_buf sign_len in_buf in_len m)))
     = isvalid (obj m) /\
   isprivate (obj (snd (rsaSign sign_buf sign_len in_buf in_len m)))
     = isprivate (obj m)) /\
  (isvalid (obj (snd (rsaVerify sign_buf sign_len in_buf in_len m)))
     = isvalid (obj m) /\
   isprivate (obj (snd (rsaVerify sign_buf sign_len in_buf in_len m)))
     = isprivate (obj m)) /\
  (isvalid (obj (snd (rsaGetDER buf buf_size m))) = isvalid (obj m) /\
   isprivate (obj (snd (rsaGetDER buf buf_size m))) = isprivate (obj m)).
Proof.
  rewrite rsaSign_obj, rsaVerify_obj, rsaGetDER_obj. repeat split.
Qed.

(** C10.  With a NULL input pointer and any declared length, each of
    [rsaLoadDER], [rsaLoadPEM] and [rsaLoadPrivatePEM] returns failure
    without any call into the library, so the pointer is handed to
    nothing that would read through it, and [isvalid] is 0 afterwards. *)
Theorem loaders_reject_null (size : Z) (m : machine) :
  (fst (rsaLoadDER None size m) = 0 /\
   isvalid (obj (snd (rsaLoadDER None size m))) = 0 /\
   trace (snd (rsaLoadDER None size m)) = trace m /\
   heap (snd (rsaLoadDER None size m)) = heap m) /\
  (fst (rsaLoadPEM None size m) = 0 /\
   isvalid (obj (snd (rsaLoadPEM None size m))) = 0 /\
   trace (snd (rsaLoadPEM None size m)) = trace m /\
   heap (snd (rsaLoadPEM None size m)) = heap m) /\
  (fst (rsaLoadPrivatePEM None size m) = 0 /\
   isvalid (obj (snd (rsaLoadPrivatePEM None size m))) = 0 /\
   trace (snd (rsaLoadPrivatePEM None size m)) = trace m /\
   heap (snd (rsaLoadPrivatePEM None size m)) = heap m).
Proof.
  unfold rsaLoadDER, rsaLoadPEM, rsaLoadPrivatePEM. open_monad. cbn.
  repeat split.
Qed.

End Effects.

(** ** The theorems at work on the small environment *)

(** C1, an instance: create, a failed [rsaLoadDER] (the object is not
    private yet), then a successful [rsaGenerate]. *)
Lemma private_implies_valid_unless_failed_on_private_witness :
  reachable_avoiding (E := toy) fails_on_private toy_loaded_late /\
  private_implies_valid toy_loaded_late.
Proof.
  assert (H : reachable_avoiding (E := toy) fails_on_private toy_loaded_late).
  { unfold toy_loaded_late.
    apply reach_step;
      [apply reach_step;
         [apply (reach_created (E := toy) _ toy_raw); reflexivity
         | reflexivity]
      | reflexivity]. }
  split;
    [exact H
    | exact (private_implies_valid_unless_failed_on_private toy_loaded_late H)].
Defined.

(** C1, the claim as stated fails: after a successful [rsaGenerate], a
    rejected [rsaGenerate 0] leaves [isprivate] at 1 with [isvalid] at 0. *)
Lemma private_without_valid_reachable :
  reachable (E := toy) toy_generate_failed /\
  isprivate (obj toy_generate_failed) = 1 /\
  isvalid (obj toy_generate_failed) = 0.
Proof.
  split; [| split; reflexivity].
  unfold reachable, toy_generate_failed.
  apply reach_step;
    [apply reach_step;
       [apply (reach_created (E := toy) _ toy_raw); reflexivity
       | reflexivity]
    | reflexivity].
Qed.

(** C2, an instance: [rsaLoadDER] on bytes that do not decode, applied
    to an object holding a generated key. *)
Lemma failed_acquisition_clears_isvalid_only_witness :
  clears_isvalid_first (LoadDER (Some hello) 100) = true /\
  fst (exec (E := toy) (LoadDER (Some hello) 100) toy_generated) = 0 /\
  isvalid (obj (snd (exec (LoadDER (Some hello) 100) toy_generated))) = 0 /\
  isprivate (obj (snd (exec (LoadDER (Some hello) 100) toy_generated)))
    = isprivate (obj toy_generated).
Proof.
  split; [reflexivity |]. split; [reflexivity |].
  apply (failed_acquisition_clears_isvalid_only (E := toy)
           (LoadDER (Some hello) 100) toy_generated);
    reflexivity.
Defined.

(** C2, the claim as stated fails: the same failed load returns 0 and
    [isprivate] is still 1. *)
Lemma failed_load_keeps_isprivate :
  fst (exec (E := toy) (LoadDER (Some hello) 100) toy_generated) = 0 /\
  isprivate (obj (snd (exec (LoadDER (Some hello) 100) toy_generated))) = 1.
Proof. split; reflexivity. Qed.

(** C3, an instance: a 270-byte encoding and a capacity of 300. *)
Lemma rsaGetDER_bounds_witness :
  isvalid (obj toy_generated) <> 0 /\
  encodes_as_announced (E := toy) toy_generated [] /\
  fst (fst (rsaGetDER [] 300 toy_generated)) = 270 /\
  fst (fst (rsaGetDER [] 270 toy_generated)) = 0 /\
  fst (fst (rsaGetDER [] 271 toy_generated)) = 270.
Proof.
  assert (Hv : isvalid (obj toy_generated) <> 0) by (vm_compute; lia).
  assert (He : encodes_as_announced (E := toy) toy_generated [])
    by reflexivity.
  split; [exact Hv |]. split; [exact He |].
  destruct (rsaGetDER_bounds (E := toy) toy_generated [] 300 Hv He)
    as (Hlen & _ & Heq & Hnext).
  split; [exact Hlen |]. split; [exact Heq |].
  apply Hnext. vm_compute. reflexivity.
Defined.

(** C4, an instance: a 256-byte signature into a 256-byte buffer, and
    into a 255-byte buffer. *)
Lemma rsaSign_result_witness :
  fst (fst (rsaSign (E := toy) [] 256 hello 5 toy_generated)) = 256 /\
  fst (fst (rsaSign (E := toy) [] 255 hello 5 toy_generated)) = 0.
Proof.
  split.
  - destruct (rsaSign_result (E := toy) toy_generated [] 256 hello 5)
      as (_ & _ & _ & Hok & _).
    apply Hok; vm_compute; congruence.
  - destruct (rsaSign_result (E := toy) toy_generated [] 255 hello 5)
      as (_ & Hsmall & _).
    apply Hsmall. vm_compute. reflexivity.
Defined.

(** C5, an instance: ten bytes of DER prefix against a minimum of 48,
    on an object holding a generated key. *)
Lemma rsaLoadDER_short_input_witness :
  10 <= RSA_MINSIZE (Env := toy) /\
  fst (rsaLoadDER (E := toy) (Some der_prefix) 10 toy_generated) = 0 /\
  trace (snd (rsaLoadDER (Some der_prefix) 10 toy_generated))
    = trace toy_generated /\
  heap (snd (rsaLoadDER (Some der_prefix) 10 toy_generated))
    = heap toy_generated /\
  isvalid (obj (snd (rsaLoadDER (Some der_prefix) 10 toy_generated))) = 0 /\
  isprivate (obj (snd (rsaLoadDER (Some der_prefix) 10 toy_generated)))
    = isprivate (obj toy_generated).
Proof.
  assert (H : 10 <= RSA_MINSIZE (Env := toy)) by (cbn; lia).
  split; [exact H |].
  exact (rsaLoadDER_short_input (E := toy) (Some der_prefix) 10 toy_generated H).
Defined.

(** C5, the claim as stated fails: the short load on an object holding a
    generated key returns 0 and clears [isvalid], but [isprivate] is
    still 1, so the object is not left in the invalid state with both
    flags false. *)
Lemma short_load_keeps_isprivate :
  10 <= RSA_MINSIZE (Env := toy) /\
  isvalid (obj toy_generated) = 1 /\
  isprivate (obj toy_generated) = 1 /\
  fst (rsaLoadDER (E := toy) (Some der_prefix) 10 toy_generated) = 0 /\
  isvalid (obj (snd (rsaLoadDER (Some der_prefix) 10 toy_generated))) = 0 /\
  isprivate (obj (snd (rsaLoadDER (Some der_prefix) 10 toy_generated))) = 1.
Proof.
  split; [cbn; lia | repeat split].
Qed.

(** C6, an instance: [rsaGenerate 0] on an object holding a generated
    key. *)
Lemma rsaGenerate_nonpositive_size_witness :
  0 <= 0 /\
  fst (rsaGenerate (E := toy) 0 toy_generated) = 0 /\
  isvalid (obj (snd (rsaGenerate 0 toy_generated))) = 0 /\
  fst (rsaSign [] 256 hello 5 (snd (rsaGenerate 0 toy_generated)))
    = fst (rsaSign [] 256 hello 5 toy_generated).
Proof.
  assert (H : 0 <= 0) by lia.
  split; [exact H |].
  destruct (rsaGenerate_nonpositive_size (E := toy) 0 toy_generated H)
    as (Hret & Hflag & _ & Hsign & _).
  split; [exact Hret |]. split; [exact Hflag |]. apply Hsign.
Defined.

(** C6, the claim as stated fails: after the rejected [rsaGenerate 0] the
    object still signs, verifies and exports its key. *)
Lemma generate_failure_does_not_silence :
  fst (rsaGenerate (E := toy) 0 toy_generated) = 0 /\
  isvalid (obj (snd (rsaGenerate 0 toy_generated))) = 0 /\
  fst (fst (rsaSign [] 256 hello 5 (snd (rsaGenerate 0 toy_generated)))) = 256 /\
  fst (rsaVerify [] 256 hello 5 (snd (rsaGenerate 0 toy_generated))) = 1 /\
  fst (fst (rsaGetDER [] 416 (snd (rsaGenerate 0 toy_generated)))) = 270.
Proof. repeat split. Qed.

(** C8, an instance: a key whose encoding takes 500 bytes, against a
    staging buffer of 416. *)
Lemma rsaGetFingerprint_size_out_of_range_witness :
  (RSA_MAXSIZE (Env := toy) <= fst (rsaGetDERSize toy_big_key) \/
   fst (rsaGetDERSize toy_big_key) <= RSA_MINSIZE (Env := toy)) /\
  fst (fst (rsaGetFingerprint (E := toy) [] 32 toy_big_key)) = 0.
Proof.
  assert (H : RSA_MAXSIZE (Env := toy) <= fst (rsaGetDERSize toy_big_key) \/
              fst (rsaGetDERSize toy_big_key) <= RSA_MINSIZE (Env := toy))
    by (left; vm_compute; congruence).
  split; [exact H |].
  exact (proj1 (proj2
    (rsaGetFingerprint_size_out_of_range (E := toy) toy_big_key [] 32 H))).
Defined.

(** * Further properties of [rsa.c] *)

(** Normalise a trace built by successive calls and exhibit the calls
    made since the start. *)
Ltac since_start :=
  repeat rewrite <- app_assoc; cbn [app];
  eexists; split; [reflexivity |].

Ltac not_called := cbn; intuition discriminate.

Section Further.

Context {E : Env}.

(** ** Lifecycle *)

(** X1.  [rsaCreate] returns 1 exactly when [BN_new], [EVP_PKEY_new] and
    [EVP_MD_CTX_create] all answer a non-NULL pointer, and 0 otherwise;
    when it returns 1 the struct holds exactly these three pointers and
    both flags are 0. *)
Theorem rsaCreate_succeeds_iff (m : machine) :
  let '(b, k, c) := create_calls m in
  (fst (rsaCreate m) = 1 <-> b <> NULL /\ k <> NULL /\ c <> NULL) /\
  (fst (rsaCreate m) = 0 \/ fst (rsaCreate m) = 1) /\
  (fst (rsaCreate m) = 1 -> obj (snd (rsaCreate m)) = mk_rsa k b c 0 0).
Proof.
  unfold create_calls, rsaCreate, rsaReset, BN_new, BN_free, BN_zero,
    EVP_PKEY_new, EVP_MD_CTX_create, EVP_PKEY_free.
  open_monad. cbn.
  destruct (lib_BN_new (heap m)) as [b w1].
  destruct (lib_BN_zero b w1) as [u w2] eqn:Hz.
  destruct (lib_EVP_PKEY_new w2) as [k w3] eqn:Hk.
  destruct (lib_EVP_MD_CTX_create w3) as [c w4] eqn:Hc.
  cbn. unfold NULL in *.
  destruct (Z.eqb_spec b 0) as [Hb | Hb]; cbn.
  - destruct (lib_BN_free b w1). cbn.
    repeat split; try tauto; intros; try discriminate; tauto.
  - rewrite Hz; cbn. rewrite Hk; cbn.
    destruct (Z.eqb_spec k 0) as [Hk0 | Hk0]; cbn.
    + repeat split; try tauto; intros; try discriminate; tauto.
    + rewrite Hc; cbn.
      destruct (Z.eqb_spec c 0) as [Hc0 | Hc0]; cbn.
      * destruct (lib_EVP_PKEY_free k w4). cbn.
        repeat split; try tauto; intros; try discriminate; tauto.
      * repeat split; try tauto; intros; try discriminate; tauto.
Qed.

(** X2.  When [rsaCreate] fails although [BN_new] had answered a
    non-NULL pointer, it returns without calling [BN_free]: the scratch
    value stays allocated, its pointer still in the struct.  The key
    handle, in contrast, is released when the digest context cannot be
    created. *)
Theorem rsaCreate_failure_keeps_bn (m : machine) :
  fst (rsaCreate m) = 0 ->
  bn (obj (snd (rsaCreate m))) <> NULL ->
  exists l, trace (snd (rsaCreate m)) = trace m ++ l /\
            ~ In P_BN_free l /\
            (In P_EVP_MD_CTX_create l -> In P_EVP_PKEY_free l).
Proof.
  unfold rsaCreate, rsaReset, BN_new, BN_free, BN_zero,
    EVP_PKEY_new, EVP_MD_CTX_create, EVP_PKEY_free.
  open_monad. unfold NULL. run_through; intros Hret Hbn;
    try discriminate; try (apply Z.eqb_eq in Heqb; contradiction);
    since_start; split; try not_called; cbn; tauto.
Qed.

(** X3.  [rsaDestroy] after a successful [rsaCreate]: each of the three
    handles is released once, digest context, key handle, scratch value
    in this order, each call receiving the pointer the struct holds; the
    flags are 0 and the struct keeps the three released pointers. *)
Theorem rsaCreate_then_rsaDestroy (m : machine) :
  fst (rsaCreate m) = 1 ->
  let m1 := snd (rsaCreate m) in
  let m2 := snd (rsaDestroy m1) in
  trace m2 = trace m ++ [P_BN_new; P_BN_zero; P_EVP_PKEY_new;
                         P_EVP_MD_CTX_create; P_EVP_MD_CTX_destroy;
                         P_EVP_PKEY_free; P_BN_free] /\
  heap m2 = snd (lib_BN_free (bn (obj m1))
              (snd (lib_EVP_PKEY_free (key (obj m1))
                 (snd (lib_EVP_MD_CTX_destroy (md (obj m1)) (heap m1)))))) /\
  obj m2 = obj m1 /\
  isvalid (obj m2) = 0 /\ isprivate (obj m2) = 0.
Proof.
  unfold rsaDestroy, rsaCreate, rsaReset, BN_new, BN_free, BN_zero,
    EVP_PKEY_new, EVP_MD_CTX_create, EVP_PKEY_free, EVP_MD_CTX_destroy.
  open_monad. run_through; intros Hret; try discriminate.
  repeat rewrite <- app_assoc. cbn. repeat split.
Qed.

(** ** Acquisition *)

(** [rsaIsValid] and [rsaIsPrivate] read the flags. *)
Lemma rsaIsValid_reads (m : machine) : rsaIsValid m = (isvalid (obj m), m).
Proof. reflexivity. Qed.

Lemma rsaIsPrivate_reads (m : machine) : rsaIsPrivate m = (isprivate (obj m), m).
Proof. reflexivity. Qed.

(** X4.  After [rsaGenerate], [rsaLoadDER], [rsaLoadPEM] or
    [rsaLoadPrivatePEM], [rsaIsValid] answers what the function returned,
    which is 0 or 1. *)
Theorem acquisition_result_is_rsaIsValid (o : op) (m : machine) :
  clears_isvalid_first o = true ->
  fst (rsaIsValid (snd (exec o m))) = fst (exec o m) /\
  (fst (exec o m) = 0 \/ fst (exec o m) = 1).
Proof.
  intros Hkind. rewrite rsaIsValid_reads. cbn [fst].
  destruct o; cbn in Hkind; try discriminate; cbn [exec].
  - pose proof (rsaGenerate_flags key_size m) as H.
    cbv zeta in H. lia.
  - pose proof (rsaLoadDER_flags pubkey pubkey_size m) as H.
    cbv zeta in H. lia.
  - pose proof (rsaLoadPEM_flags pubkey pubkey_size m) as H.
    cbv zeta in H. lia.
  - pose proof (rsaLoadPrivatePEM_flags privkey privkey_size m) as H.
    cbv zeta in H. lia.
Qed.

(** X5.  A successful acquisition decides both flags, whatever they
    were: it returns 1, [isvalid] is 1, and [isprivate] is 1 after
    [rsaImportKey], [rsaGenerate] and [rsaLoadPrivatePEM] and 0 after
    [rsaLoadDER] and [rsaLoadPEM], so that loading a public key into an
    object that held a private one makes it public. *)
Theorem successful_acquisition_sets_kind (o : op) (p : Z) (m : machine) :
  acquired_private o = Some p ->
  fst (exec o m) <> 0 ->
  fst (exec o m) = 1 /\
  isvalid (obj (snd (exec o m))) = 1 /\
  isprivate (obj (snd (exec o m))) = p.
Proof.
  intros Hkind Hok.
  destruct o; cbn in Hkind; try discriminate;
    injection Hkind as <-; cbn [exec] in *.
  - pose proof (rsaImportKey_flags keypath m) as H. cbv zeta in H. lia.
  - pose proof (rsaGenerate_flags key_size m) as H. cbv zeta in H. lia.
  - pose proof (rsaLoadDER_flags pubkey pubkey_size m) as H.
    cbv zeta in H. lia.
  - pose proof (rsaLoadPEM_flags pubkey pubkey_size m) as H.
    cbv zeta in H. lia.
  - pose proof (rsaLoadPrivatePEM_flags privkey privkey_size m) as H.
    cbv zeta in H. lia.
Qed.

(** X6.  When the key file cannot be opened, [rsaImportKey] returns 0
    having already stored the fresh handle of [EVP_PKEY_new] in the
    struct: the handle the object held is dropped without being
    released, and both flags are what they were, so an object that was
    valid still says so. *)
Theorem rsaImportKey_missing_file (keypath : string) (m : machine) :
  let '(k, in_) := import_calls m keypath in
  in_ = NULL ->
  let m' := snd (rsaImportKey keypath m) in
  fst (rsaImportKey keypath m) = 0 /\
  key (obj m') = k /\
  isvalid (obj m') = isvalid (obj m) /\
  isprivate (obj m') = isprivate (obj m) /\
  trace m' = trace m ++ [P_OpenSSL_add_all_algorithms; P_EVP_PKEY_new;
                         P_BIO_new_file].
Proof.
  unfold import_calls, rsaImportKey, OpenSSL_add_all_algorithms,
    EVP_PKEY_new, BIO_new_file.
  open_monad. cbn.
  destruct (lib_OpenSSL_add_all_algorithms (heap m)) as [u w1].
  destruct (lib_EVP_PKEY_new w1) as [k w2] eqn:Hk.
  destruct (lib_BIO_new_file keypath "r" w2) as [in_ w3] eqn:Hin.
  intros ->. cbn. rewrite Hk. cbn. rewrite Hin. cbn.
  repeat rewrite <- app_assoc. cbn. repeat split.
Qed.

(** ** Signatures *)

(** [rsaVerify] as a function of what the library answers. *)
Lemma rsaVerify_formula (m : machine) (sign_buf : buffer) (sign_len : Z)
    (in_buf : buffer) (in_len : Z) :
  let '(r1, r2, r3) := verify_calls m sign_buf sign_len in_buf in_len in
  fst (rsaVerify sign_buf sign_len in_buf in_len m) =
  if r1 =? 0 then 0 else if r2 =? 0 then 0 else if r3 =? 0 then 0 else 1.
Proof.
  unfold verify_calls, rsaVerify, EVP_sha256, EVP_VerifyInit_ex,
    EVP_VerifyUpdate, EVP_VerifyFinal.
  open_monad. cbn.
  destruct (lib_EVP_sha256 (heap m)) as [sha w1].
  destruct (lib_EVP_VerifyInit_ex (md (obj m)) sha w1) as [r1 w2] eqn:H1.
  destruct (lib_EVP_VerifyUpdate (md (obj m)) in_buf in_len w2) as [r2 w3] eqn:H2.
  destruct (lib_EVP_VerifyFinal (md (obj m)) sign_buf sign_len (key (obj m)) w3)
    as [r3 w4] eqn:H3.
  cbn. rewrite ?H1; cbn.
  destruct (r1 =? 0); cbn; [reflexivity |].
  rewrite ?H2; cbn.
  destruct (r2 =? 0); cbn; [reflexivity |].
  rewrite ?H3; cbn.
  destruct (r3 =? 0); reflexivity.
Qed.

(** X7.  [rsaVerify] returns 1 exactly when [EVP_VerifyInit_ex],
    [EVP_VerifyUpdate] and [EVP_VerifyFinal] all return non-zero, and 0
    otherwise.  A negative result of [EVP_VerifyFinal] is therefore
    answered with 1. *)
Theorem rsaVerify_result (m : machine) (sign_buf : buffer) (sign_len : Z)
    (in_buf : buffer) (in_len : Z) :
  let r := fst (rsaVerify sign_buf sign_len in_buf in_len m) in
  let '(r1, r2, r3) := verify_calls m sign_buf sign_len in_buf in_len in
  (r = 1 <-> r1 <> 0 /\ r2 <> 0 /\ r3 <> 0) /\
  (r = 0 \/ r = 1) /\
  (r1 <> 0 -> r2 <> 0 -> r3 < 0 -> r = 1).
Proof.
  intros r. subst r.
  pose proof (rsaVerify_formula m sign_buf sign_len in_buf in_len) as Hf.
  destruct (verify_calls m sign_buf sign_len in_buf in_len) as [[r1 r2] r3].
  rewrite Hf.
  destruct (Z.eqb_spec r1 0); destruct (Z.eqb_spec r2 0);
    destruct (Z.eqb_spec r3 0); intuition (try discriminate; try lia).
Qed.

(** X8.  When the capacity is below [rsaSignSize], or [EVP_SignInit_ex]
    or [EVP_SignUpdate] returns 0, [rsaSign] leaves the output buffer as
    it was and never calls [EVP_SignFinal]; with too small a capacity it
    has called [EVP_PKEY_size] and nothing else. *)
Theorem rsaSign_early_exit_keeps_buffer (m : machine) (sign_buf : buffer)
    (sign_len : Z) (in_buf : buffer) (in_len : Z) :
  let '(maxlen, r1, r2, _, _) := sign_calls m sign_buf in_buf in_len in
  let res := rsaSign sign_buf sign_len in_buf in_len m in
  (sign_len < maxlen \/ r1 = 0 \/ r2 = 0 ->
   fst res = (0, sign_buf) /\
   exists l, trace (snd res) = trace m ++ l /\ ~ In P_EVP_SignFinal l) /\
  (sign_len < maxlen -> trace (snd res) = trace m ++ [P_EVP_PKEY_size]).
Proof.
  unfold sign_calls, rsaSign, rsaSignSize, EVP_PKEY_size, EVP_sha256,
    EVP_SignInit_ex, EVP_SignUpdate, EVP_SignFinal.
  open_monad. cbn.
  destruct (lib_EVP_PKEY_size (key (obj m)) (heap m)) as [maxlen w1].
  destruct (lib_EVP_sha256 w1) as [sha w2] eqn:H0.
  destruct (lib_EVP_SignInit_ex (md (obj m)) sha w2) as [r1 w3] eqn:H1.
  destruct (lib_EVP_SignUpdate (md (obj m)) in_buf in_len w3) as [r2 w4] eqn:H2.
  destruct (lib_EVP_SignFinal (md (obj m)) sign_buf (key (obj m)) w4)
    as [[[r3 sig] s] w5] eqn:H3.
  cbn.
  destruct (Z.ltb_spec sign_len maxlen); cbn.
  { split; [intros _; split; [reflexivity | since_start; not_called]
           | reflexivity]. }
  rewrite ?H0; cbn. rewrite ?H1; cbn.
  destruct (Z.eqb_spec r1 0); cbn.
  { split; [intros _; split; [reflexivity | since_start; not_called] | lia]. }
  rewrite ?H2; cbn.
  destruct (Z.eqb_spec r2 0); cbn.
  { split; [intros _; split; [reflexivity | since_start; not_called] | lia]. }
  split; [intros [Hc | [Hc | Hc]]; lia | lia].
Qed.

(** The signed reading of 32 stored bits. *)
Lemma int_of_uint_range (u : Z) :
  -2147483648 <= int_of_uint u <= 2147483647 /\
  (0 < int_of_uint u -> int_of_uint u = u mod 4294967296).
Proof.
  unfold int_of_uint. cbv zeta.
  pose proof (Z.mod_pos_bound u 4294967296 ltac:(lia)) as Hm.
  destruct (Z.ltb_spec (u mod 4294967296) 2147483648); lia.
Qed.

(** X9.  The length [rsaSign] returns is an [int] between 0 and
    [2^31 - 1]; when it is not 0 it is the stored length modulo [2^32],
    and a stored length of [2^31] or more (below [2^32]) is answered
    with 0. *)
Theorem rsaSign_length_range (m : machine) (sign_buf : buffer)
    (sign_len : Z) (in_buf : buffer) (in_len : Z) :
  let len := fst (fst (rsaSign sign_buf sign_len in_buf in_len m)) in
  let '(_, _, _, _, s) := sign_calls m sign_buf in_buf in_len in
  0 <= len <= 2147483647 /\
  (len <> 0 -> len = s mod 4294967296) /\
  (2147483648 <= s < 4294967296 -> len = 0).
Proof.
  intros len. subst len.
  pose proof (rsaSign_formula m sign_buf sign_len in_buf in_len) as Hf.
  destruct (sign_calls m sign_buf in_buf in_len) as [[[[maxlen r1] r2] r3] s].
  rewrite Hf.
  pose proof (int_of_uint_range s) as [Hr Hpos].
  assert (Hbig : 2147483648 <= s < 4294967296 -> int_of_uint s <= 0).
  { intros Hs. unfold int_of_uint. cbv zeta.
    rewrite (Z.mod_small s 4294967296) by lia.
    destruct (Z.ltb_spec s 2147483648); lia. }
  destruct (sign_len <? maxlen); destruct (r1 =? 0); destruct (r2 =? 0);
    destruct (r3 =? 0); destruct (Z.ltb_spec 0 (int_of_uint s)); cbn;
    repeat split; intros; try lia; try (apply Hpos; lia).
Qed.

(** ** Export of the public key *)

(** X10.  When the size [rsaGetDERSize] computes is at most
    [RSA_MINSIZE], or at least the capacity, [rsaGetDER] returns 0 and
    the buffer as it was: the library was asked for the size and never
    handed the buffer. *)
Theorem rsaGetDER_rejects_without_writing (m : machine) (buf : buffer)
    (buf_size : Z) :
  fst (rsaGetDERSize m) <= RSA_MINSIZE \/ buf_size <= fst (rsaGetDERSize m) ->
  fst (rsaGetDER buf buf_size m) = (0, buf) /\
  snd (rsaGetDER buf buf_size m) = snd (rsaGetDERSize m) /\
  trace (snd (rsaGetDER buf buf_size m)) = trace m ++ [P_i2d_PublicKey].
Proof.
  intros Hsize. unfold rsaGetDER. open_monad.
  assert (Htr : trace (snd (rsaGetDERSize m)) = trace m ++ [P_i2d_PublicKey]).
  { unfold rsaGetDERSize, i2d_PublicKey. open_monad. run_through; reflexivity. }
  destruct (rsaGetDERSize m) as [ptlen m1]. cbn [fst snd] in *.
  replace ((RSA_MINSIZE <? ptlen) && (ptlen <? buf_size)) with false.
  - cbn. auto.
  - symmetry. apply andb_false_iff.
    destruct Hsize; [left | right]; apply Z.ltb_ge; lia.
Qed.

(** X11.  A non-zero return of [rsaGetDER] is strictly positive and
    tells that the size [rsaGetDERSize] computes lies strictly between
    [RSA_MINSIZE] and the capacity; with a key that encodes as announced
    the returned length is that size, so the encoding fits the buffer
    with room to spare. *)
Theorem rsaGetDER_nonzero_within_bounds (m : machine) (buf : buffer)
    (buf_size : Z) :
  fst (fst (rsaGetDER buf buf_size m)) <> 0 ->
  0 < fst (fst (rsaGetDER buf buf_size m)) /\
  RSA_MINSIZE < fst (rsaGetDERSize m) < buf_size /\
  (encodes_as_announced m buf ->
   fst (fst (rsaGetDER buf buf_size m)) = fst (rsaGetDERSize m) /\
   fst (fst (rsaGetDER buf buf_size m)) < buf_size).
Proof.
  intros Hnz.
  assert (Hb : 0 < fst (fst (rsaGetDER buf buf_size m)) /\
               RSA_MINSIZE < fst (rsaGetDERSize m) < buf_size).
  { revert Hnz. unfold rsaGetDER. open_monad.
    destruct (rsaGetDERSize m) as [ptlen m1]. cbn [fst snd].
    destruct (Z.ltb_spec RSA_MINSIZE ptlen); cbn;
      [| intros Habs; contradiction].
    destruct (Z.ltb_spec ptlen buf_size); cbn;
      [| intros Habs; contradiction].
    destruct (i2d_PublicKey (key (obj m1)) (Some buf) m1) as [[len buf'] m2].
    destruct (Z.ltb_spec 0 len); cbn; intros Hlen; [lia | contradiction]. }
  split; [tauto |]. split; [tauto |].
  intros Henc. rewrite (rsaGetDER_formula m buf buf_size Henc) in *.
  destruct Hb as (_ & Hlo & Hhi).
  replace (RSA_MINSIZE <? fst (rsaGetDERSize m)) with true
    by (symmetry; apply Z.ltb_lt; lia).
  replace (fst (rsaGetDERSize m) <? buf_size) with true
    by (symmetry; apply Z.ltb_lt; lia).
  cbn [andb]. split; [reflexivity | exact Hhi].
Qed.

(** ** What the flags do not guard *)

(** X12.  No query and no signature operation consults the flags:
    [rsaGetDERSize], [rsaGetDER], [rsaGetFingerprint], [rsaSignSize],
    [rsaSign] and [rsaVerify] return the same on two objects that differ
    in [isvalid] and [isprivate] only. *)
Theorem results_ignore_flags (m : machine) (v p : Z)
    (buf : buffer) (buf_size : Z)
    (sign_buf : buffer) (sign_len : Z) (in_buf : buffer) (in_len : Z) :
  let m' := mk_machine (mk_rsa (key (obj m)) (bn (obj m)) (md (obj m)) v p)
                       (heap m) (trace m) in
  fst (rsaGetDERSize m') = fst (rsaGetDERSize m) /\
  fst (rsaGetDER buf buf_size m') = fst (rsaGetDER buf buf_size m) /\
  fst (rsaGetFingerprint buf buf_size m')
    = fst (rsaGetFingerprint buf buf_size m) /\
  fst (rsaSignSize m') = fst (rsaSignSize m) /\
  fst (rsaSign sign_buf sign_len in_buf in_len m')
    = fst (rsaSign sign_buf sign_len in_buf in_len m) /\
  fst (rsaVerify sign_buf sign_len in_buf in_len m')
    = fst (rsaVerify sign_buf sign_len in_buf in_len m).
Proof.
  cbv zeta. repeat split.
  - unfold rsaGetDERSize, i2d_PublicKey. open_monad. run_through; reflexivity.
  - unfold rsaGetDER, rsaGetDERSize, i2d_PublicKey.
    open_monad. run_through; reflexivity.
  - unfold rsaGetFingerprint, cryptoCalculateSHA256, rsaGetDER,
      rsaGetDERSize, i2d_PublicKey.
    open_monad. run_through; reflexivity.
  - unfold rsaSignSize, EVP_PKEY_size. open_monad. run_through; reflexivity.
  - unfold rsaSign, rsaSignSize, EVP_PKEY_size, EVP_sha256,
      EVP_SignInit_ex, EVP_SignUpdate, EVP_SignFinal.
    open_monad. run_through; reflexivity.
  - unfold rsaVerify, EVP_sha256, EVP_VerifyInit_ex, EVP_VerifyUpdate,
      EVP_VerifyFinal.
    open_monad. run_through; reflexivity.
Qed.

(** X13.  The queries leave the struct alone: [rsaGetDERSize],
    [rsaGetFingerprint] and [rsaSignSize] change no field of it, and
    [rsaIsValid] and [rsaIsPrivate] answer the flags without any call
    into the library. *)
Theorem queries_keep_struct (m : machine) (buf : buffer) (buf_size : Z) :
  obj (snd (rsaGetDERSize m)) = obj m /\
  obj (snd (rsaGetFingerprint buf buf_size m)) = obj m /\
  obj (snd (rsaSignSize m)) = obj m /\
  rsaIsValid m = (isvalid (obj m), m) /\
  rsaIsPrivate m = (isprivate (obj m), m).
Proof.
  rewrite rsaGetDERSize_obj, rsaGetFingerprint_obj.
  repeat split.
  unfold rsaSignSize, EVP_PKEY_size. open_monad. run_through; reflexivity.
Qed.

(** ** Invariants of the object's life *)

(** X14.  In every state an object reaches once [rsaCreate] has returned
    1, each of the two flags is 0 or 1. *)
Theorem reachable_flags_are_boolean (m : machine) :
  reachable m ->
  (isvalid (obj m) = 0 \/ isvalid (obj m) = 1) /\
  (isprivate (obj m) = 0 \/ isprivate (obj m) = 1).
Proof.
  unfold reachable.
  induction 1 as [m0 Hcreated | o m Hreach IH _].
  - pose proof (rsaCreate_flags m0) as H. cbv zeta in H. lia.
  - pose proof (exec_flags o m) as H. cbv zeta in H. lia.
Qed.

(** In an environment whose [RSA_check_key] never answers 1 the three
    functions that accept a private key return 0. *)
Lemma rsaGenerate_needs_check (key_size : Z) (m : machine) :
  (forall p w, fst (lib_RSA_check_key p w) <> 1) ->
  fst (rsaGenerate key_size m) = 0.
Proof.
  intros Hchk.
  unfold rsaGenerate, RSA_new, BN_set_word, RSA_generate_key_ex,
    RSA_check_key, EVP_PKEY_assign_RSA.
  open_monad. cbn.
  destruct (key_size <=? 0); cbn; [reflexivity |].
  destruct (lib_RSA_new (heap m)) as [rsakey w1]. cbn.
  destruct (rsakey =? NULL); cbn; [reflexivity |].
  destruct (lib_BN_set_word (bn (obj m)) RSA_F4 w1) as [r1 w2]. cbn.
  destruct (r1 =? 0); cbn; [reflexivity |].
  destruct (lib_RSA_generate_key_ex rsakey key_size (bn (obj m)) w2)
    as [r2 w3]. cbn.
  destruct (r2 =? 0); cbn; [reflexivity |].
  pose proof (Hchk rsakey w3) as Hne.
  destruct (lib_RSA_check_key rsakey w3) as [chk w4]. cbn in *.
  destruct (Z.eqb_spec chk 1); [contradiction | reflexivity].
Qed.

Lemma rsaLoadPrivatePEM_needs_check (privkey : option buffer)
    (privkey_size : Z) (m : machine) :
  (forall p w, fst (lib_RSA_check_key p w) <> 1) ->
  fst (rsaLoadPrivatePEM privkey privkey_size m) = 0.
Proof.
  intros Hchk.
  unfold rsaLoadPrivatePEM, BIO_new_mem_buf, RSA_new,
    PEM_read_bio_RSAPrivateKey, RSA_check_key, EVP_PKEY_assign_RSA,
    RSA_free, BIO_free.
  open_monad. cbn.
  destruct privkey as [bytes |]; cbn; [| reflexivity].
  destruct (0 <? privkey_size); cbn; [| reflexivity].
  destruct (lib_BIO_new_mem_buf bytes privkey_size (heap m)) as [bio w1]. cbn.
  destruct (bio =? NULL); cbn; [reflexivity |].
  destruct (lib_RSA_new w1) as [rsakey w2]. cbn.
  destruct (rsakey =? NULL); cbn.
  { destruct (lib_BIO_free bio w2). reflexivity. }
  destruct (lib_PEM_read_bio_RSAPrivateKey bio rsakey w2) as [[p rsakey'] w3].
  cbn.
  destruct (p =? NULL); cbn.
  { destruct (lib_RSA_free rsakey' w3) as [u w4]. cbn.
    destruct (lib_BIO_free bio w4). reflexivity. }
  pose proof (Hchk rsakey' w3) as Hne.
  destruct (lib_RSA_check_key rsakey' w3) as [chk w4]. cbn in *.
  destruct (Z.eqb_spec chk 1); [contradiction |]. cbn.
  destruct (lib_RSA_free rsakey' w4) as [u w5]. cbn.
  destruct (lib_BIO_free bio w5). reflexivity.
Qed.

Lemma rsaImportKey_needs_check (keypath : string) (m : machine) :
  (forall p w, fst (lib_RSA_check_key p w) <> 1) ->
  fst (rsaImportKey keypath m) = 0.
Proof.
  intros Hchk.
  unfold rsaImportKey, OpenSSL_add_all_algorithms, EVP_PKEY_new,
    BIO_new_file, PEM_read_bio_PrivateKey, BIO_free, EVP_PKEY_get1_RSA,
    RSA_check_key.
  open_monad. cbn.
  destruct (lib_OpenSSL_add_all_algorithms (heap m)) as [u w1]. cbn.
  destruct (lib_EVP_PKEY_new w1) as [k w2]. cbn.
  destruct (lib_BIO_new_file keypath "r" w2) as [in_ w3]. cbn.
  destruct (in_ =? NULL); cbn; [reflexivity |].
  destruct (lib_PEM_read_bio_PrivateKey in_ k w3) as [[p k'] w4]. cbn.
  destruct (lib_BIO_free in_ w4) as [r w5]. cbn.
  destruct (lib_EVP_PKEY_get1_RSA k' w5) as [rsakey w6]. cbn.
  pose proof (Hchk rsakey w6) as Hne.
  destruct (lib_RSA_check_key rsakey w6) as [chk w7]. cbn in *.
  destruct (Z.eqb_spec chk 1); [contradiction | reflexivity].
Qed.

(** X15.  An object becomes private only through a key that
    [RSA_check_key] answered with exactly 1: where the library never
    gives that answer (an error is -1, a bad key 0), [isprivate] is 0 in
    every state an object reaches. *)
Theorem no_private_key_without_check (m : machine) :
  (forall p w, fst (lib_RSA_check_key p w) <> 1) ->
  reachable m ->
  isprivate (obj m) = 0.
Proof.
  intros Hchk. unfold reachable.
  induction 1 as [m0 Hcreated | o m Hreach IH _].
  - pose proof (rsaCreate_flags m0) as H. cbv zeta in H. lia.
  - destruct o; cbn [exec].
    + pose proof (rsaCreate_flags m) as H. cbv zeta in H. lia.
    + reflexivity.
    + pose proof (rsaImportKey_flags keypath m) as H. cbv zeta in H.
      pose proof (rsaImportKey_needs_check keypath m Hchk). lia.
    + pose proof (rsaGenerate_flags key_size m) as H. cbv zeta in H.
      pose proof (rsaGenerate_needs_check key_size m Hchk). lia.
    + pose proof (rsaLoadDER_flags pubkey pubkey_size m) as H.
      cbv zeta in H. lia.
    + pose proof (rsaLoadPEM_flags pubkey pubkey_size m) as H.
      cbv zeta in H. lia.
    + pose proof (rsaLoadPrivatePEM_flags privkey privkey_size m) as H.
      cbv zeta in H.
      pose proof (rsaLoadPrivatePEM_needs_check privkey privkey_size m Hchk).
      lia.
    + rewrite drop_buffer_snd, rsaSign_obj. exact IH.
    + rewrite rsaVerify_obj. exact IH.
    + rewrite drop_buffer_snd, rsaGetDER_obj. exact IH.
    + rewrite rsaGetDERSize_obj. exact IH.
    + rewrite drop_buffer_snd, rsaGetFingerprint_obj. exact IH.
Qed.

(** X16.  Apart from [rsaCreate] and [rsaImportKey], no operation
    stores a pointer into the struct: the key handle, the scratch value
    and the digest context are the same pointers afterwards. *)
Theorem handles_stay (o : op) (m : machine) :
  replaces_handles o = false ->
  key (obj (snd (exec o m))) = key (obj m) /\
  bn (obj (snd (exec o m))) = bn (obj m) /\
  md (obj (snd (exec o m))) = md (obj m).
Proof.
  intros Hkind.
  destruct o; cbn in Hkind; try discriminate; cbn [exec].
  - cbn. auto.
  - unfold rsaGenerate, RSA_new, BN_set_word, RSA_generate_key_ex,
      RSA_check_key, EVP_PKEY_assign_RSA.
    open_monad. run_through; auto.
  - unfold rsaLoadDER, d2i_PublicKey.
    open_monad. run_through; auto.
  - unfold rsaLoadPEM, BIO_new_mem_buf, RSA_new, PEM_read_bio_RSA_PUBKEY,
      EVP_PKEY_assign_RSA, RSA_free, BIO_free.
    open_monad. run_through; auto.
  - unfold rsaLoadPrivatePEM, BIO_new_mem_buf, RSA_new,
      PEM_read_bio_RSAPrivateKey, RSA_check_key, EVP_PKEY_assign_RSA,
      RSA_free, BIO_free.
    open_monad. run_through; auto.
  - rewrite drop_buffer_snd, rsaSign_obj. auto.
  - rewrite rsaVerify_obj. auto.
  - rewrite drop_buffer_snd, rsaGetDER_obj. auto.
  - rewrite rsaGetDERSize_obj. auto.
  - rewrite drop_buffer_snd, rsaGetFingerprint_obj. auto.
Qed.

(** ** Allocation inside the acquisition functions *)

(** X17.  [rsaGenerate] releases nothing: whichever way it returns it
    has called none of [RSA_free], [EVP_PKEY_free] and [BN_free], so the
    RSA structure of a failed generation stays allocated.  When it
    returns 1 it has made exactly the five calls [RSA_new],
    [BN_set_word], [RSA_generate_key_ex], [RSA_check_key] and
    [EVP_PKEY_assign_RSA], in this order. *)
Theorem rsaGenerate_releases_nothing (key_size : Z) (m : machine) :
  exists l,
    trace (snd (rsaGenerate key_size m)) = trace m ++ l /\
    ~ In P_RSA_free l /\ ~ In P_EVP_PKEY_free l /\ ~ In P_BN_free l /\
    (fst (rsaGenerate key_size m) = 1 ->
     l = [P_RSA_new; P_BN_set_word; P_RSA_generate_key_ex;
          P_RSA_check_key; P_EVP_PKEY_assign_RSA]).
Proof.
  unfold rsaGenerate, RSA_new, BN_set_word, RSA_generate_key_ex,
    RSA_check_key, EVP_PKEY_assign_RSA.
  open_monad. run_through;
    try solve [exists []; rewrite app_nil_r; repeat split;
               try not_called; intros; discriminate];
    since_start; repeat split; try not_called; intros; discriminate.
Qed.

(** X18.  The two PEM loaders settle what they allocate.  They return 1
    exactly when they have handed the decoded key to the key handle with
    [EVP_PKEY_assign_RSA]; a key they have handed over they do not
    release; and once [RSA_new] has been called the memory stream is
    closed with [BIO_free] before they return. *)
Theorem pem_loaders_settle (o : op) (m : machine) :
  loads_pem o = true ->
  exists l,
    trace (snd (exec o m)) = trace m ++ l /\
    (fst (exec o m) = 1 <-> In P_EVP_PKEY_assign_RSA l) /\
    ~ (In P_EVP_PKEY_assign_RSA l /\ In P_RSA_free l) /\
    (In P_RSA_new l -> In P_BIO_free l).
Proof.
  intros Hkind.
  destruct o; cbn in Hkind; try discriminate; cbn [exec].
  - unfold rsaLoadPEM, BIO_new_mem_buf, RSA_new, PEM_read_bio_RSA_PUBKEY,
      EVP_PKEY_assign_RSA, RSA_free, BIO_free.
    open_monad. run_through;
      try solve [exists []; rewrite app_nil_r; cbn;
                 intuition (try discriminate; try lia)];
      since_start; cbn; intuition (try discriminate; try lia).
  - unfold rsaLoadPrivatePEM, BIO_new_mem_buf, RSA_new,
      PEM_read_bio_RSAPrivateKey, RSA_check_key, EVP_PKEY_assign_RSA,
      RSA_free, BIO_free.
    open_monad. run_through;
      try solve [exists []; rewrite app_nil_r; cbn;
                 intuition (try discriminate; try lia)];
      since_start; cbn; intuition (try discriminate; try lia).
Qed.

End Further.

(** ** The further properties at work on the small environments *)

(** X1, an instance: all three allocations succeed. *)
Lemma rsaCreate_succeeds_iff_witness :
  fst (rsaCreate (E := toy) toy_raw) = 1 /\
  obj (snd (rsaCreate toy_raw)) = mk_rsa 1 1 1 0 0.
Proof.
  pose proof (rsaCreate_succeeds_iff (E := toy) toy_raw) as H.
  vm_compute in H. destruct H as (Hiff & _ & Hobj).
  split; [apply Hiff; repeat split; discriminate | apply Hobj; reflexivity].
Defined.

(** X2, an instance: [EVP_PKEY_new] answers NULL after [BN_new] has
    answered 1. *)
Lemma rsaCreate_failure_keeps_bn_witness :
  fst (rsaCreate (sim_raw no_pkey)) = 0 /\
  bn (obj (snd (rsaCreate (sim_raw no_pkey)))) <> NULL /\
  exists l,
    trace (snd (rsaCreate (sim_raw no_pkey))) = trace (sim_raw no_pkey) ++ l /\
    ~ In P_BN_free l /\
    (In P_EVP_MD_CTX_create l -> In P_EVP_PKEY_free l).
Proof.
  assert (H1 : fst (rsaCreate (sim_raw no_pkey)) = 0) by reflexivity.
  assert (H2 : bn (obj (snd (rsaCreate (sim_raw no_pkey)))) <> NULL)
    by (vm_compute; discriminate).
  split; [exact H1 |]. split; [exact H2 |].
  exact (rsaCreate_failure_keeps_bn (sim_raw no_pkey) H1 H2).
Defined.

(** X3, an instance. *)
Lemma rsaCreate_then_rsaDestroy_witness :
  fst (rsaCreate (E := toy) toy_raw) = 1 /\
  trace (snd (rsaDestroy (snd (rsaCreate toy_raw)))) =
    [P_BN_new; P_BN_zero; P_EVP_PKEY_new; P_EVP_MD_CTX_create;
     P_EVP_MD_CTX_destroy; P_EVP_PKEY_free; P_BN_free].
Proof.
  assert (H : fst (rsaCreate (E := toy) toy_raw) = 1) by reflexivity.
  split; [exact H |].
  exact (proj1 (rsaCreate_then_rsaDestroy (E := toy) toy_raw H)).
Defined.

(** X4, an instance: a load that fails to decode. *)
Lemma acquisition_result_is_rsaIsValid_witness :
  clears_isvalid_first (LoadDER (Some hello) 100) = true /\
  fst (rsaIsValid (snd (exec (E := toy) (LoadDER (Some hello) 100) toy_generated)))
    = fst (exec (LoadDER (Some hello) 100) toy_generated).
Proof.
  split; [reflexivity |].
  exact (proj1 (acquisition_result_is_rsaIsValid (E := toy)
                  (LoadDER (Some hello) 100) toy_generated eq_refl)).
Defined.

(** X5, an instance: a public key loaded into an object that holds a
    generated key. *)
Lemma successful_acquisition_sets_kind_witness :
  acquired_private (LoadDER (Some der_prefix) 100) = Some 0 /\
  fst (exec (E := toy) (LoadDER (Some der_prefix) 100) toy_generated) <> 0 /\
  isprivate (obj toy_generated) = 1 /\
  isprivate (obj (snd (exec (LoadDER (Some der_prefix) 100) toy_generated))) = 0.
Proof.
  assert (H : fst (exec (E := toy) (LoadDER (Some der_prefix) 100)
                     toy_generated) <> 0)
    by (vm_compute; discriminate).
  split; [reflexivity |]. split; [exact H |]. split; [reflexivity |].
  exact (proj2 (proj2 (successful_acquisition_sets_kind (E := toy)
                         (LoadDER (Some der_prefix) 100) 0 toy_generated
                         eq_refl H))).
Defined.

(** X6, an instance: no key file, on an object that holds a private
    key behind handle 1; [EVP_PKEY_new] answers 2. *)
Lemma rsaImportKey_missing_file_witness :
  snd (import_calls (sim_private no_file) "peer.key") = NULL /\
  fst (rsaImportKey "peer.key" (sim_private no_file)) = 0 /\
  key (obj (sim_private no_file)) = 1 /\
  key (obj (snd (rsaImportKey "peer.key" (sim_private no_file)))) = 2 /\
  isvalid (obj (snd (rsaImportKey "peer.key" (sim_private no_file)))) = 1.
Proof.
  split; [reflexivity |].
  pose proof (rsaImportKey_missing_file (E := sim no_file) "peer.key"
                (sim_private no_file)) as H.
  vm_compute in H. specialize (H eq_refl).
  destruct H as (Hret & Hkey & Hvalid & _).
  split; [exact Hret |]. split; [reflexivity |].
  split; [exact Hkey | exact Hvalid].
Defined.

(** X7, an instance: [EVP_VerifyFinal] answers -1. *)
Lemma rsaVerify_result_witness :
  verify_calls (sim_private verify_error) [] 256 hello 5 = (1, 1, -1) /\
  fst (rsaVerify [] 256 hello 5 (sim_private verify_error)) = 1.
Proof.
  split; [reflexivity |].
  pose proof (rsaVerify_result (E := sim verify_error)
                (sim_private verify_error) [] 256 hello 5) as H.
  vm_compute in H. destruct H as (_ & _ & Hneg).
  apply Hneg; [discriminate | discriminate | reflexivity].
Defined.

(** X8, an instance: a 255-byte buffer for a 256-byte signature. *)
Lemma rsaSign_early_exit_keeps_buffer_witness :
  255 < fst (rsaSignSize (E := toy) toy_generated) /\
  fst (rsaSign [] 255 hello 5 toy_generated) = (0, []) /\
  trace (snd (rsaSign [] 255 hello 5 toy_generated))
    = trace toy_generated ++ [P_EVP_PKEY_size].
Proof.
  assert (Hsmall : 255 < fst (rsaSignSize (E := toy) toy_generated))
    by (vm_compute; reflexivity).
  split; [exact Hsmall |].
  pose proof (rsaSign_early_exit_keeps_buffer (E := toy) toy_generated
                [] 255 hello 5) as H.
  change (sign_calls toy_generated [] hello 5) with (256, 1, 1, 1, 256) in H.
  cbv beta iota zeta in H. destruct H as (Hbuf & Htrace).
  split; [exact (proj1 (Hbuf (or_introl Hsmall))) | exact (Htrace Hsmall)].
Defined.

(** X9, an instance: [EVP_SignFinal] stores [2^32 - 1]. *)
Lemma rsaSign_length_range_witness :
  2147483648 <= 4294967295 < 4294967296 /\
  fst (fst (rsaSign (E := toy) [] 256 hello 5 toy_huge_sig)) = 0.
Proof.
  assert (Hs : 2147483648 <= 4294967295 < 4294967296) by lia.
  split; [exact Hs |].
  pose proof (rsaSign_length_range (E := toy) toy_huge_sig [] 256 hello 5) as H.
  change (sign_calls toy_huge_sig [] hello 5)
    with (256, 1, 1, 1, 4294967295) in H.
  cbv beta iota zeta in H. destruct H as (_ & _ & Hbig).
  exact (Hbig Hs).
Defined.

(** X10, an instance: a 40-byte encoding against a minimum of 48. *)
Lemma rsaGetDER_rejects_without_writing_witness :
  (fst (rsaGetDERSize toy_small_key) <= RSA_MINSIZE (Env := toy) \/
   416 <= fst (rsaGetDERSize toy_small_key)) /\
  fst (rsaGetDER [x00; x00] 416 toy_small_key) = (0, [x00; x00]).
Proof.
  assert (H : fst (rsaGetDERSize toy_small_key) <= RSA_MINSIZE (Env := toy) \/
              416 <= fst (rsaGetDERSize toy_small_key))
    by (left; vm_compute; discriminate).
  split; [exact H |].
  exact (proj1 (rsaGetDER_rejects_without_writing (E := toy) toy_small_key
                  [x00; x00] 416 H)).
Defined.

(** X11, an instance: 270 bytes into a capacity of 300. *)
Lemma rsaGetDER_nonzero_within_bounds_witness :
  fst (fst (rsaGetDER (E := toy) [] 300 toy_generated)) <> 0 /\
  RSA_MINSIZE (Env := toy) < fst (rsaGetDERSize toy_generated) < 300.
Proof.
  assert (H : fst (fst (rsaGetDER (E := toy) [] 300 toy_generated)) <> 0)
    by (vm_compute; discriminate).
  split; [exact H |].
  exact (proj1 (proj2 (rsaGetDER_nonzero_within_bounds (E := toy)
                         toy_generated [] 300 H))).
Defined.

(** X14, an instance: the state with [isprivate] 1 and [isvalid] 0. *)
Lemma reachable_flags_are_boolean_witness :
  reachable (E := toy) toy_generate_failed /\
  (isvalid (obj toy_generate_failed) = 0 \/
   isvalid (obj toy_generate_failed) = 1) /\
  (isprivate (obj toy_generate_failed) = 0 \/
   isprivate (obj toy_generate_failed) = 1).
Proof.
  assert (H : reachable (E := toy) toy_generate_failed).
  { unfold reachable, toy_generate_failed.
    apply reach_step;
      [apply reach_step;
         [apply (reach_created (E := toy) _ toy_raw); reflexivity
         | reflexivity]
      | reflexivity]. }
  split; [exact H | exact (reachable_flags_are_boolean toy_generate_failed H)].
Defined.

(** X15, an instance: [RSA_check_key] answers -1; create, then
    generate. *)
Lemma no_private_key_without_check_witness :
  (forall p w, fst (lib_RSA_check_key (Env := sim check_error) p w) <> 1) /\
  reachable (snd (exec (Generate 2048) (snd (rsaCreate (sim_raw check_error))))) /\
  isprivate (obj (snd (exec (Generate 2048)
                        (snd (rsaCreate (sim_raw check_error)))))) = 0.
Proof.
  assert (Hchk : forall p w,
             fst (lib_RSA_check_key (Env := sim check_error) p w) <> 1)
    by (intros p w; cbn; discriminate).
  assert (Hreach : reachable (snd (exec (Generate 2048)
                                     (snd (rsaCreate (sim_raw check_error)))))).
  { unfold reachable.
    apply reach_step;
      [apply (reach_created (E := sim check_error) _ (sim_raw check_error));
       reflexivity
      | reflexivity]. }
  split; [exact Hchk |]. split; [exact Hreach |].
  exact (no_private_key_without_check _ Hchk Hreach).
Defined.

(** X16, an instance: a successful generation. *)
Lemma handles_stay_witness :
  replaces_handles (Generate 2048) = false /\
  key (obj (snd (exec (E := toy) (Generate 2048) toy_created)))
    = key (obj toy_created).
Proof.
  split; [reflexivity |].
  exact (proj1 (handles_stay (E := toy) (Generate 2048) toy_created eq_refl)).
Defined.

(** X17, an instance: a successful generation. *)
Lemma rsaGenerate_releases_nothing_witness :
  fst (rsaGenerate (E := toy) 2048 toy_created) = 1 /\
  trace (snd (rsaGenerate 2048 toy_created)) =
    trace toy_created ++ [P_RSA_new; P_BN_set_word; P_RSA_generate_key_ex;
                          P_RSA_check_key; P_EVP_PKEY_assign_RSA].
Proof.
  assert (H : fst (rsaGenerate (E := toy) 2048 toy_created) = 1)
    by reflexivity.
  split; [exact H |].
  destruct (rsaGenerate_releases_nothing (E := toy) 2048 toy_created)
    as (l & Htrace & _ & _ & _ & Hl).
  rewrite Htrace, (Hl H). reflexivity.
Defined.

(** X18, an instance: a private PEM load that succeeds. *)
Lemma pem_loaders_settle_witness :
  loads_pem (LoadPrivatePEM (Some hello) 5) = true /\
  exists l,
    trace (snd (exec (E := toy) (LoadPrivatePEM (Some hello) 5) toy_created))
      = trace toy_created ++ l /\
    (fst (exec (LoadPrivatePEM (Some hello) 5) toy_created) = 1 <->
     In P_EVP_PKEY_assign_RSA l) /\
    ~ (In P_EVP_PKEY_assign_RSA l /\ In P_RSA_free l) /\
    (In P_RSA_new l -> In P_BIO_free l).
Proof.
  split; [reflexivity |].
  exact (pem_loaders_settle (E := toy) (LoadPrivatePEM (Some hello) 5)
           toy_created eq_refl).
Defined.
